(** * Solar energy advisor: the calculation engine and the recommendation
      fallback of [src/App.jsx], embedded and verified.

    Modelling conventions.
    - The inventory (devices, solar settings) holds finite numbers, and the
      engine's arithmetic on them is exact: such a number is a canonical
      rational [Qc].  The rounding of IEEE doubles is left to [Binary64],
      the same engine on doubles, used to show where the two part ways.
    - A value that the code can set to [Infinity], or that reaches the
      recommendation layer from outside, is a [number]: a finite rational,
      one of the two infinities, or NaN, with the comparisons and [Math.min]
      of JavaScript.
    - The closures that update captured accumulators ([roomEnergyKWhDay += ...],
      [totalEnergyKWhDay += ...]) are state-passing steps run over the array
      from left to right by [mapAccum].
    - The advisory service is the environment: its answer is an argument.
    - Of the views, the values they compute are modelled (the room energy of
      the manager, the ROI card, the pie slices up to their angles, the sorted
      cost table, the state left by a request for recommendations), not the
      markup.
    - The document store is the list of its documents; objects are lists of
      fields in which the first entry of a key is its value. *)

From Stdlib Require Import QArith Qcanon Qround ZArith Lia List String.
From Stdlib Require Import Permutation Sorted.
From Stdlib Require Floats.
Import ListNotations.

Open Scope string_scope.
Open Scope Qc_scope.

(** ** Numbers *)

(** A decimal literal of the source, as an exact rational. *)
Definition lit (q : Q) : Qc := Q2Qc q.

(** [x > y] on finite numbers. *)
Definition Qc_gtb (x y : Qc) : bool :=
  match x ?= y with Gt => true | _ => false end.

(** [x < y] on finite numbers. *)
Definition Qc_ltb (x y : Qc) : bool :=
  match x ?= y with Lt => true | _ => false end.

Infix ">?" := Qc_gtb (at level 70, no associativity) : Qc_scope.
Infix "<?" := Qc_ltb (at level 70, no associativity) : Qc_scope.

(** A JavaScript number: finite, [Infinity], [-Infinity] or [NaN]. *)
Inductive number : Type :=
| Fin (q : Qc)
| Infinity
| NegInfinity
| NaN.

(** JavaScript's [a < b]: false as soon as one side is [NaN]. *)
Definition num_ltb (a b : number) : bool :=
  match a, b with
  | NaN, _ | _, NaN => false
  | Fin x, Fin y => x <? y
  | Fin _, Infinity => true
  | Fin _, NegInfinity => false
  | Infinity, _ => false
  | NegInfinity, NegInfinity => false
  | NegInfinity, _ => true
  end.

(** The order [a < b] as a relation, stated on its own. *)
Inductive num_lt : number -> number -> Prop :=
| lt_fin x y : x < y -> num_lt (Fin x) (Fin y)
| lt_fin_inf x : num_lt (Fin x) Infinity
| lt_neginf_fin y : num_lt NegInfinity (Fin y)
| lt_neginf_inf : num_lt NegInfinity Infinity.

(** [a <= b] in JavaScript: [a < b] or the two are the same non-NaN value. *)
Definition num_le (a b : number) : Prop :=
  num_lt a b \/ (a = b /\ a <> NaN).

(** [Math.min(a, b)]: [NaN] if either argument is, the smaller one otherwise. *)
Definition Math_min (a b : number) : number :=
  match a, b with
  | NaN, _ | _, NaN => NaN
  | _, _ => if num_ltb b a then b else a
  end.

(** ** Data model *)

Record Device : Type := mkDevice {
  d_id : string;
  d_roomId : string;
  d_name : string;
  d_quantity : Qc;
  d_powerW : Qc;
  d_usageHours : Qc
}.

Record Room : Type := mkRoom {
  r_id : string;
  r_name : string;
  r_purpose : string
}.

Record SolarSettings : Type := mkSettings {
  electricityRate : Qc;
  solarCostPerKW : Qc;
  efficiencyFactor : Qc;
  sunlightHours : Qc;
  lifetimeYears : Qc;
  annualInflation : Qc
}.

Record DeviceMetrics : Type := mkDeviceMetrics {
  energyKWhDay : Qc;
  costDay : Qc;
  costMonth : Qc;
  costYear : Qc
}.

(** [{ ...device, metrics }] *)
Record DeviceWithMetrics : Type := mkDeviceWithMetrics {
  dm_id : string;
  dm_roomId : string;
  dm_name : string;
  dm_quantity : Qc;
  dm_powerW : Qc;
  dm_usageHours : Qc;
  dm_metrics : DeviceMetrics
}.

Record RoomMetrics : Type := mkRoomMetrics {
  rm_energyKWhDay : Qc;
  rm_costYearGrid : Qc;
  rm_requiredCapacityKW : Qc;
  rm_installationCost : Qc;
  rm_roiYears : number;
  rm_yearlySavings : Qc
}.

(** [{ ...room, devices, metrics }] *)
Record RoomWithMetrics : Type := mkRoomWithMetrics {
  rw_id : string;
  rw_name : string;
  rw_purpose : string;
  rw_devices : list DeviceWithMetrics;
  rw_metrics : RoomMetrics
}.

Record BuildingMetrics : Type := mkBuildingMetrics {
  totalEnergyKWhDay : Qc;
  totalCostYearGrid : Qc;
  totalRequiredCapacityKW : Qc;
  totalInstallationCost : Qc;
  totalROIYears : number;
  longTermSavings : Qc;
  paybackYears : number;
  yearlySavings : Qc
}.

Record BuildingTotals : Type := mkBuildingTotals {
  rooms : list RoomWithMetrics;
  building : BuildingMetrics
}.

(** ** Core calculation logic *)

(** [calculateDeviceMetrics(device, rate)] *)
Definition calculateDeviceMetrics (device : Device) (rate : Qc) : DeviceMetrics :=
  let powerKW := d_powerW device / lit 1000 in
  let energyKWhDay := powerKW * d_quantity device * d_usageHours device in
  let costDay := energyKWhDay * rate in
  {| energyKWhDay := energyKWhDay;
     costDay := costDay;
     costMonth := costDay * (lit 365.25 / lit 12);
     costYear := costDay * lit 365.25 |}.

(** [array.map(callback)] for a callback that also updates variables it
    captured: the captured variables are the state [s], threaded through the
    elements in array order. *)
Fixpoint mapAccum {S A B : Type} (f : S -> A -> S * B) (s : S) (l : list A)
  : S * list B :=
  match l with
  | [] => (s, [])
  | a :: l' =>
      let '(s1, b) := f s a in
      let '(s2, bs) := mapAccum f s1 l' in
      (s2, b :: bs)
  end.

(** The callback of [roomDevices.map]; the state is
    [(roomEnergyKWhDay, roomCostYearGrid)]. *)
Definition deviceStep (rate : Qc) (acc : Qc * Qc) (device : Device)
  : (Qc * Qc) * DeviceWithMetrics :=
  let '(roomEnergyKWhDay, roomCostYearGrid) := acc in
  let metrics := calculateDeviceMetrics device rate in
  ((roomEnergyKWhDay + energyKWhDay metrics,
    roomCostYearGrid + costYear metrics),
   {| dm_id := d_id device;
      dm_roomId := d_roomId device;
      dm_name := d_name device;
      dm_quantity := d_quantity device;
      dm_powerW := d_powerW device;
      dm_usageHours := d_usageHours device;
      dm_metrics := metrics |}).

(** [devices.filter(d => d.roomId === room.id)] *)
Definition roomDevicesOf (devices : list Device) (room : Room) : list Device :=
  filter (fun d => String.eqb (d_roomId d) (r_id room)) devices.

(** [annualGenerationPerKW > 0 ? annualConsumptionKWh / annualGenerationPerKW : 0] *)
Definition capacityFor (annualConsumptionKWh annualGenerationPerKW : Qc) : Qc :=
  if annualGenerationPerKW >? 0
  then annualConsumptionKWh / annualGenerationPerKW
  else 0.

(** [yearlySavings > 0 ? installationCost / yearlySavings : Infinity] *)
Definition roiFor (installationCost yearlySavings : Qc) : number :=
  if yearlySavings >? 0
  then Fin (installationCost / yearlySavings)
  else Infinity.

(** The callback of [rooms.map]; the state is
    [(totalEnergyKWhDay, totalCostYearGrid)]. *)
Definition roomStep (devices : list Device) (solarSettings : SolarSettings)
    (acc : Qc * Qc) (room : Room) : (Qc * Qc) * RoomWithMetrics :=
  let '(totalEnergyKWhDay, totalCostYearGrid) := acc in
  let roomDevices := roomDevicesOf devices room in
  let '((roomEnergyKWhDay, roomCostYearGrid), devicesWithMetrics) :=
    mapAccum (deviceStep (electricityRate solarSettings)) (0, 0) roomDevices in
  let annualConsumptionKWh := roomEnergyKWhDay * lit 365.25 in
  let annualGenerationPerKW :=
    lit 365.25 * sunlightHours solarSettings * efficiencyFactor solarSettings in
  let requiredCapacityKW := capacityFor annualConsumptionKWh annualGenerationPerKW in
  let installationCost := requiredCapacityKW * solarCostPerKW solarSettings in
  let yearlySavings := roomCostYearGrid in
  let roiYears := roiFor installationCost yearlySavings in
  ((totalEnergyKWhDay + roomEnergyKWhDay,
    totalCostYearGrid + roomCostYearGrid),
   {| rw_id := r_id room;
      rw_name := r_name room;
      rw_purpose := r_purpose room;
      rw_devices := devicesWithMetrics;
      rw_metrics :=
        {| rm_energyKWhDay := roomEnergyKWhDay;
           rm_costYearGrid := roomCostYearGrid;
           rm_requiredCapacityKW :=
             if requiredCapacityKW >? 0 then requiredCapacityKW else 0;
           rm_installationCost := installationCost;
           rm_roiYears := Math_min roiYears (Fin (lit 999));
           rm_yearlySavings := yearlySavings |} |}).

(** How often the body of [for (let i = 0; i < lifetimeYears; i++)] runs:
    once for each natural number below [lifetimeYears]. *)
Definition loopTrips (lifetimeYears : Qc) : nat :=
  Z.to_nat (Qceiling lifetimeYears).

(** The body of the projection loop, run [trips] times on
    [(futureSavings, gridCost)]. *)
Fixpoint savingsLoop (trips : nat) (annualInflation : Qc)
    (futureSavings gridCost : Qc) : Qc * Qc :=
  match trips with
  | O => (futureSavings, gridCost)
  | S trips' =>
      savingsLoop trips' annualInflation
        (futureSavings + gridCost) (gridCost * (1 + annualInflation))
  end.

(** [calculateBuildingTotals(rooms, devices, solarSettings)] *)
Definition calculateBuildingTotals (rooms : list Room) (devices : list Device)
    (solarSettings : SolarSettings) : BuildingTotals :=
  let '((totalEnergyKWhDay, totalCostYearGrid), roomsWithMetrics) :=
    mapAccum (roomStep devices solarSettings) (0, 0) rooms in
  let totalAnnualConsumptionKWh := totalEnergyKWhDay * lit 365.25 in
  let annualGenerationPerKW :=
    lit 365.25 * sunlightHours solarSettings * efficiencyFactor solarSettings in
  let totalRequiredCapacityKW :=
    capacityFor totalAnnualConsumptionKWh annualGenerationPerKW in
  let totalInstallationCost :=
    totalRequiredCapacityKW * solarCostPerKW solarSettings in
  let totalYearlySavings := totalCostYearGrid in
  let totalROIYears := roiFor totalInstallationCost totalYearlySavings in
  let futureSavings :=
    fst (savingsLoop (loopTrips (lifetimeYears solarSettings))
           (annualInflation solarSettings) 0 totalCostYearGrid) in
  let longTermSavings := futureSavings - totalInstallationCost in
  {| rooms := roomsWithMetrics;
     building :=
       {| totalEnergyKWhDay := totalEnergyKWhDay;
          totalCostYearGrid := totalCostYearGrid;
          totalRequiredCapacityKW := totalRequiredCapacityKW;
          totalInstallationCost := totalInstallationCost;
          totalROIYears := Math_min totalROIYears (Fin (lit 999));
          longTermSavings := longTermSavings;
          paybackYears := totalROIYears;
          yearlySavings := totalYearlySavings |} |}.

(** ** Computations that can throw *)

Inductive Completion (E A : Type) : Type :=
| Normal (a : A)
| Throw (e : E).

Arguments Normal {E A} a.
Arguments Throw {E A} e.

Definition bind {E A B : Type} (c : Completion E A)
    (k : A -> Completion E B) : Completion E B :=
  match c with
  | Normal a => k a
  | Throw e => Throw e
  end.

Notation "x <- c ;; k" := (bind c (fun x => k))
  (at level 61, c at next level, right associativity).
Notation "' pat <- c ;; k" := (bind c (fun x => match x with pat => k end))
  (at level 61, pat pattern, c at next level, right associativity).

(** [try { body } catch (e) { handler }] *)
Definition tryCatch {E A : Type} (body : Completion E A)
    (handler : E -> Completion E A) : Completion E A :=
  match body with
  | Normal a => Normal a
  | Throw e => handler e
  end.

(** ** The engine with every quotient of [calculateBuildingTotals] checked

    The same code as above, except that [a / b] stops the run when [b] is
    zero.  ([calculateDeviceMetrics] divides by the literals 1000 and 12 only
    and is used as it is.) *)
Module Checked.

Inductive DivisionError : Type :=
| ZeroDivisor (dividend : Qc).

Definition M : Type -> Type := Completion DivisionError.

Definition divide (a b : Qc) : M Qc :=
  if Qc_eq_bool b 0 then Throw (ZeroDivisor a) else Normal (a / b).

Fixpoint mapAccumM {S A B : Type} (f : S -> A -> M (S * B)) (s : S)
    (l : list A) : M (S * list B) :=
  match l with
  | [] => Normal (s, [])
  | a :: l' =>
      '(s1, b) <- f s a ;;
      '(s2, bs) <- mapAccumM f s1 l' ;;
      Normal (s2, b :: bs)
  end.

Definition capacityFor (annualConsumptionKWh annualGenerationPerKW : Qc) : M Qc :=
  if annualGenerationPerKW >? 0
  then divide annualConsumptionKWh annualGenerationPerKW
  else Normal 0.

Definition roiFor (installationCost yearlySavings : Qc) : M number :=
  if yearlySavings >? 0
  then q <- divide installationCost yearlySavings ;; Normal (Fin q)
  else Normal Infinity.

Definition roomStep (devices : list Device) (solarSettings : SolarSettings)
    (acc : Qc * Qc) (room : Room) : M ((Qc * Qc) * RoomWithMetrics) :=
  let '(totalEnergyKWhDay, totalCostYearGrid) := acc in
  let roomDevices := roomDevicesOf devices room in
  let '((roomEnergyKWhDay, roomCostYearGrid), devicesWithMetrics) :=
    mapAccum (deviceStep (electricityRate solarSettings)) (0, 0) roomDevices in
  let annualConsumptionKWh := roomEnergyKWhDay * lit 365.25 in
  let annualGenerationPerKW :=
    lit 365.25 * sunlightHours solarSettings * efficiencyFactor solarSettings in
  requiredCapacityKW <- capacityFor annualConsumptionKWh annualGenerationPerKW ;;
  let installationCost := requiredCapacityKW * solarCostPerKW solarSettings in
  let yearlySavings := roomCostYearGrid in
  roiYears <- roiFor installationCost yearlySavings ;;
  Normal
    ((totalEnergyKWhDay + roomEnergyKWhDay,
      totalCostYearGrid + roomCostYearGrid),
     {| rw_id := r_id room;
        rw_name := r_name room;
        rw_purpose := r_purpose room;
        rw_devices := devicesWithMetrics;
        rw_metrics :=
          {| rm_energyKWhDay := roomEnergyKWhDay;
             rm_costYearGrid := roomCostYearGrid;
             rm_requiredCapacityKW :=
               if requiredCapacityKW >? 0 then requiredCapacityKW else 0;
             rm_installationCost := installationCost;
             rm_roiYears := Math_min roiYears (Fin (lit 999));
             rm_yearlySavings := yearlySavings |} |}).

Definition calculateBuildingTotals (rooms : list Room) (devices : list Device)
    (solarSettings : SolarSettings) : M BuildingTotals :=
  '((totalEnergyKWhDay, totalCostYearGrid), roomsWithMetrics) <-
    mapAccumM (roomStep devices solarSettings) (0, 0) rooms ;;
  let totalAnnualConsumptionKWh := totalEnergyKWhDay * lit 365.25 in
  let annualGenerationPerKW :=
    lit 365.25 * sunlightHours solarSettings * efficiencyFactor solarSettings in
  totalRequiredCapacityKW <-
    capacityFor totalAnnualConsumptionKWh annualGenerationPerKW ;;
  let totalInstallationCost :=
    totalRequiredCapacityKW * solarCostPerKW solarSettings in
  let totalYearlySavings := totalCostYearGrid in
  totalROIYears <- roiFor totalInstallationCost totalYearlySavings ;;
  let futureSavings :=
    fst (savingsLoop (loopTrips (lifetimeYears solarSettings))
           (annualInflation solarSettings) 0 totalCostYearGrid) in
  let longTermSavings := futureSavings - totalInstallationCost in
  Normal
    {| rooms := roomsWithMetrics;
       building :=
         {| totalEnergyKWhDay := totalEnergyKWhDay;
            totalCostYearGrid := totalCostYearGrid;
            totalRequiredCapacityKW := totalRequiredCapacityKW;
            totalInstallationCost := totalInstallationCost;
            totalROIYears := Math_min totalROIYears (Fin (lit 999));
            longTermSavings := longTermSavings;
            paybackYears := totalROIYears;
            yearlySavings := totalYearlySavings |} |}.

End Checked.

(** ** Recommendation generator *)

(** A value produced by [response.json()] or [JSON.parse]. *)
#[local] Set Warnings "-register-all".
Inductive json : Type :=
| JNull
| JBool (b : bool)
| JNum (n : number)
| JStr (s : string)
| JArr (items : list json)
| JObj (members : list (string * json)).

(** A JavaScript value of this layer: [None] is [undefined]. *)
Definition jsval : Type := option json.

(** A parsed object holds each key once; the first entry of a key is its value. *)
Fixpoint lookupMember (key : string) (members : list (string * json)) : jsval :=
  match members with
  | [] => None
  | (k, v) :: rest => if String.eqb k key then Some v else lookupMember key rest
  end.

(** [v.key] for one of the names [candidates], [content], [parts], [text],
    on a value that is neither [null] nor [undefined]: only an object can
    own such a property. *)
Definition getProp (key : string) (v : json) : jsval :=
  match v with
  | JObj members => lookupMember key members
  | _ => None
  end.

(** [v[0]] on a value that is neither [null] nor [undefined]. *)
Definition getIndex0 (v : json) : jsval :=
  match v with
  | JArr (x :: _) => Some x
  | JStr (String c _) => Some (JStr (String c EmptyString))
  | JObj members => lookupMember "0" members
  | _ => None
  end.

(** [v?.access]: [undefined] when [v] is [null] or [undefined]. *)
Definition optChain (access : json -> jsval) (v : jsval) : jsval :=
  match v with
  | None | Some JNull => None
  | Some x => access x
  end.

(** [if (v)] *)
Definition truthy (v : jsval) : bool :=
  match v with
  | None | Some JNull => false
  | Some (JBool b) => b
  | Some (JNum (Fin q)) => negb (Qc_eq_bool q 0)
  | Some (JNum NaN) => false
  | Some (JNum _) => true
  | Some (JStr s) => negb (String.eqb s "")
  | Some (JArr _) | Some (JObj _) => true
  end.

Inductive JsError : Type :=
| TypeError
| SyntaxError
| NetworkError
| Error (message : string).

(** What the environment does with the one request: [fetch] rejects, or it
    resolves to a response whose [json()] rejects ([None]) or yields a value. *)
Inductive FetchOutcome : Type :=
| FetchRejected
| Responded (body : option json).

Record PayloadEntry : Type := mkPayloadEntry {
  p_roomName : string;
  p_yearlyCost_INR : string;
  p_requiredCapacity_KW : string;
  p_roiYears : string;
  p_suggestedAction : string
}.

Record RoomRecommendation : Type := mkRoomRecommendation {
  roomName : string;
  suggestion : string;
  reasoning : string
}.

Record Recommendation : Type := mkRecommendation {
  summary : string;
  totalSavings : Qc;
  breakevenPeriod : Qc;
  capacityNeeded : Qc;
  roomRecommendations : list RoomRecommendation
}.

(** What [generateLLMRecommendation] resolves to: the value parsed from the
    service's text, returned as it is, or the object built in the [catch]. *)
Inductive Advice : Type :=
| FromService (parsed : json)
| RuleBased (recommendation : Recommendation).

Section Recommendation.

(** [JSON.parse(v)], [None] when it throws a [SyntaxError]; the built-in
    converts its argument to a string itself. *)
Variable JSON_parse : jsval -> option json.

(** [x.toFixed(digits)] *)
Variable toFixed : number -> nat -> string.

(** What the service answers to a request, which is determined by the
    per-room payload and the building totals. *)
Variable service : list PayloadEntry -> BuildingMetrics -> FetchOutcome.

Definition payloadEntry (r : RoomWithMetrics) : PayloadEntry :=
  {| p_roomName := rw_name r;
     p_yearlyCost_INR := toFixed (Fin (rm_costYearGrid (rw_metrics r))) 0;
     p_requiredCapacity_KW :=
       toFixed (Fin (rm_requiredCapacityKW (rw_metrics r))) 2;
     p_roiYears := toFixed (rm_roiYears (rw_metrics r)) 1;
     p_suggestedAction :=
       if num_ltb (rm_roiYears (rw_metrics r)) (Fin (lit 5))
       then "Convert to Solar"
       else if num_ltb (rm_roiYears (rw_metrics r)) (Fin (lit 10))
            then "Hybrid Model"
            else "Stay on Grid" |}.

Definition analysisPayload (roomAnalysis : list RoomWithMetrics)
  : list PayloadEntry :=
  map payloadEntry roomAnalysis.

(** [result.candidates?.[0]?.content?.parts?.[0]?.text] *)
Definition candidateText (result : json) : Completion JsError jsval :=
  match result with
  | JNull => Throw TypeError
  | _ =>
      Normal
        (optChain (getProp "text")
           (optChain getIndex0
              (optChain (getProp "parts")
                 (optChain (getProp "content")
                    (optChain getIndex0 (getProp "candidates" result))))))
  end.

(** The body of the [try]. *)
Definition tryBody (outcome : FetchOutcome) : Completion JsError Advice :=
  response <- match outcome with
              | FetchRejected => Throw NetworkError
              | Responded body => Normal body
              end ;;
  result <- match response with
            | None => Throw SyntaxError
            | Some v => Normal v
            end ;;
  jsonText <- candidateText result ;;
  if truthy jsonText
  then match JSON_parse jsonText with
       | Some parsed => Normal (FromService parsed)
       | None => Throw SyntaxError
       end
  else Throw (Error "Failed to get structured recommendation from AI.").

Definition fallbackRoom (r : RoomWithMetrics) : RoomRecommendation :=
  {| roomName := rw_name r;
     suggestion :=
       if num_ltb (rm_roiYears (rw_metrics r)) (Fin (lit 5))
       then "Convert to Solar (Rule-Based)"
       else "Stay on Grid (Rule-Based)";
     reasoning :=
       if num_ltb (rm_roiYears (rw_metrics r)) (Fin (lit 5))
       then String.append "High usage and good ROI of "
              (String.append (toFixed (rm_roiYears (rw_metrics r)) 1) " years.")
       else String.append "Low usage or high ROI of "
              (String.append (toFixed (rm_roiYears (rw_metrics r)) 1) " years.") |}.

(** The object returned from the [catch]. *)
Definition fallback (roomAnalysis : list RoomWithMetrics) : Recommendation :=
  {| summary := "AI recommendation service is unavailable. Falling back to rule-based analysis: Rooms with ROI < 5 years are suggested for solar conversion.";
     totalSavings := 0;
     breakevenPeriod := 0;
     capacityNeeded := 0;
     roomRecommendations := map fallbackRoom roomAnalysis |}.

(** [generateLLMRecommendation(roomAnalysis, buildingData)] *)
Definition generateLLMRecommendation (roomAnalysis : list RoomWithMetrics)
    (buildingData : BuildingMetrics) : Completion JsError Advice :=
  let analysisPayload := analysisPayload roomAnalysis in
  tryCatch
    (tryBody (service analysisPayload buildingData))
    (fun e => Normal (RuleBased (fallback roomAnalysis))).

(** The ways the advisory call fails. *)
Inductive AdvisoryFailure : FetchOutcome -> Prop :=
| network_error : AdvisoryFailure FetchRejected
| body_not_json : AdvisoryFailure (Responded None)
| body_null : AdvisoryFailure (Responded (Some JNull))
| text_missing result jsonText :
    candidateText result = Normal jsonText ->
    truthy jsonText = false ->
    AdvisoryFailure (Responded (Some result))
| text_malformed result jsonText :
    candidateText result = Normal jsonText ->
    truthy jsonText = true ->
    JSON_parse jsonText = None ->
    AdvisoryFailure (Responded (Some result)).

End Recommendation.

(** The defaults of the source. *)
Definition initialSolarSettings : SolarSettings :=
  {| electricityRate := lit 9.0;
     solarCostPerKW := lit 70000;
     efficiencyFactor := lit 1.0;
     sunlightHours := lit 5;
     lifetimeYears := lit 25;
     annualInflation := lit 0.05 |}.

(** Sum of a list of finite numbers. *)
Definition sumQc (l : list Qc) : Qc := fold_right Qcplus 0 l.

(** What [deviceStep] returns for a device, whatever the accumulators hold. *)
Definition deviceOutput (rate : Qc) (device : Device) : DeviceWithMetrics :=
  snd (deviceStep rate (0, 0) device).

(** What [roomStep] returns for a room, whatever the accumulators hold. *)
Definition roomOutput (devices : list Device) (solarSettings : SolarSettings)
    (room : Room) : RoomWithMetrics :=
  snd (roomStep devices solarSettings (0, 0) room).

(** [365.25 * sunlightHours * efficiencyFactor] *)
Definition generationPerKW (solarSettings : SolarSettings) : Qc :=
  lit 365.25 * sunlightHours solarSettings * efficiencyFactor solarSettings.

(** The input room an output room was spread from. *)
Definition roomOf (r : RoomWithMetrics) : Room :=
  {| r_id := rw_id r; r_name := rw_name r; r_purpose := rw_purpose r |}.

(** An integer as a finite number. *)
Definition ofZ (z : Z) : Qc := Q2Qc (inject_Z z).

(** [sum over i from 0 to n-1 of gridCost * (1 + inflation)^i] *)
Definition compoundedSum (gridCost inflation : Qc) (n : nat) : Qc :=
  sumQc (map (fun i => gridCost * (1 + inflation) ^ i) (seq 0 n)).

(** A device is an orphan when its [roomId] is the id of no room. *)
Definition hasRoom (rooms : list Room) (d : Device) : bool :=
  existsb (fun room => String.eqb (d_roomId d) (r_id room)) rooms.

(** The input device an output device was spread from. *)
Definition deviceOf (d : DeviceWithMetrics) : Device :=
  {| d_id := dm_id d; d_roomId := dm_roomId d; d_name := dm_name d;
     d_quantity := dm_quantity d; d_powerW := dm_powerW d;
     d_usageHours := dm_usageHours d |}.

(** The number of rooms of the list whose id a device carries. *)
Definition roomCount (rooms : list Room) (d : Device) : nat :=
  List.length (filter (fun room => String.eqb (d_roomId d) (r_id room)) rooms).

(** A device none of whose three quantities is negative. *)
Definition nonNegativeDevice (d : Device) : Prop :=
  0 <= d_quantity d /\ 0 <= d_powerW d /\ 0 <= d_usageHours d.

(** The energy a device uses in a day; the tariff plays no part in it. *)
Definition deviceEnergy (d : Device) : Qc :=
  energyKWhDay (calculateDeviceMetrics d 0).

(** ** Views *)

(** The accumulators and device rows that [RoomDeviceManager] recomputes
    for a room, with [calculateDeviceMetrics(device, 0)]. *)
Definition managerRoom (devices : list Device) (room : Room)
  : (Qc * Qc) * list DeviceWithMetrics :=
  mapAccum (deviceStep 0) (0, 0) (roomDevicesOf devices room).

(** The value of the card "ROI / Payback Period" of [SolarComparisonView]:
    [totalROIYears < 999 ? `${totalROIYears.toFixed(1)} Years` : 'N/A (No Usage)']. *)
Definition roiCard (toFixed : number -> nat -> string) (b : BuildingMetrics)
  : string :=
  if num_ltb (totalROIYears b) (Fin (lit 999))
  then String.append (toFixed (totalROIYears b) 1%nat) " Years"
  else "N/A (No Usage)".

Record PieItem : Type := mkPieItem {
  label : string;
  value : Qc
}.

(** [roomsWithMetrics.filter(r => r.metrics.energyKWhDay > 0).map(...)] *)
Definition pieData (roomsWithMetrics : list RoomWithMetrics) : list PieItem :=
  map (fun r => {| label := rw_name r;
                   value := rm_energyKWhDay (rw_metrics r) |})
      (filter (fun r => rm_energyKWhDay (rw_metrics r) >? 0) roomsWithMetrics).

(** One slice of the pie: what the [data.map] callback computes before it
    turns the two angles into points on the circle.  ([Math.sin], [Math.cos]
    and the path text built from them are left out.) *)
Record PieSegment : Type := mkPieSegment {
  seg_key : string;
  seg_percentage : Qc;
  seg_startAngle : Qc;
  seg_endAngle : Qc;
  seg_largeArcFlag : bool;
  seg_color : string;
  seg_fullCircle : bool
}.

Definition colors : list string :=
  ["#2563EB"; "#FBBF24"; "#10B981"; "#EF4444"; "#6366F1"; "#EC4899"; "#374151"].

(** The callback of [data.map((item, index) => ...)]; the state is
    [cumulativeAngle], paired with the index of the element. *)
Definition segmentStep (total : Qc) (acc : Qc * nat) (item : PieItem)
  : (Qc * nat) * PieSegment :=
  let '(cumulativeAngle, index) := acc in
  let percentage := value item / total in
  let angle := percentage * lit 360 in
  let startAngle := cumulativeAngle in
  let endAngle := cumulativeAngle + angle in
  ((endAngle, S index),
   {| seg_key := label item;
      seg_percentage := percentage;
      seg_startAngle := startAngle;
      seg_endAngle := endAngle;
      seg_largeArcFlag := angle >? lit 180;
      seg_color := nth (index mod List.length colors)%nat colors "";
      seg_fullCircle := Qc_eq_bool percentage 1 |}).

(** What [PieChart] shows. *)
Inductive PieView : Type :=
| NoUsageData
| TotalUsageZero
| Pie (segments : list PieSegment).

(** [PieChart({ data })] *)
Definition PieChart (data : list PieItem) : PieView :=
  match data with
  | [] => NoUsageData
  | _ =>
      let total := fold_left (fun sum item => sum + value item) data 0 in
      if Qc_eq_bool total 0 then TotalUsageZero
      else Pie (snd (mapAccum (segmentStep total) (0, 0%nat) data))
  end.

(** [array.sort(compareFn)]: the stable sort, by insertion.  An element
    stays in front of the ones that followed it unless [compareFn] puts one
    of them first ([compareFn(y, x) < 0]). *)
Fixpoint sortInsert {A : Type} (compareFn : A -> A -> Qc) (x : A) (l : list A)
  : list A :=
  match l with
  | [] => [x]
  | y :: l' =>
      if compareFn y x <? 0 then y :: sortInsert compareFn x l'
      else x :: y :: l'
  end.

Definition sort {A : Type} (compareFn : A -> A -> Qc) (l : list A) : list A :=
  fold_right (sortInsert compareFn) [] l.

(** [(a, b) => b.metrics.costYearGrid - a.metrics.costYearGrid] *)
Definition byCostDescending (a b : RoomWithMetrics) : Qc :=
  rm_costYearGrid (rw_metrics b) - rm_costYearGrid (rw_metrics a).

(** What rendering [Dashboard] leaves behind and shows: [sort] works in
    place, so the array the caller passed is reordered; the pie data were
    taken before. *)
Record DashboardRender : Type := mkDashboardRender {
  roomsAfterRender : list RoomWithMetrics;
  pie : PieView;
  topCostCenters : list RoomWithMetrics
}.

Definition Dashboard (roomsWithMetrics : list RoomWithMetrics) : DashboardRender :=
  let pieData := pieData roomsWithMetrics in
  let sorted := sort byCostDescending roomsWithMetrics in
  {| roomsAfterRender := sorted;
     pie := PieChart pieData;
     topCostCenters := firstn 3 sorted |}.

(** The state of [RecommendationsView]. *)
Record RecommendationsState : Type := mkRecommendationsState {
  recommendations : option Advice;
  isLoading : bool;
  error : option string
}.

(** [generateRecommendations()] of [RecommendationsView], from the state it
    is called in to the state it leaves; [messageOf] is [e.message]. *)
Definition generateRecommendations
    (JSON_parse : jsval -> option json) (toFixed : number -> nat -> string)
    (service : list PayloadEntry -> BuildingMetrics -> FetchOutcome)
    (messageOf : JsError -> string)
    (roomsWithMetrics : list RoomWithMetrics) (buildingMetrics : BuildingMetrics)
    (st : RecommendationsState) : RecommendationsState :=
  if (List.length roomsWithMetrics =? 0)%nat
     || Qc_eq_bool (totalEnergyKWhDay buildingMetrics) 0
  then {| recommendations := None;
          isLoading := isLoading st;
          error := Some "Please add rooms and devices to generate recommendations." |}
  else
    match generateLLMRecommendation JSON_parse toFixed service
            roomsWithMetrics buildingMetrics with
    | Normal result =>
        {| recommendations := Some result; isLoading := false; error := None |}
    | Throw e =>
        {| recommendations := recommendations st;
           isLoading := false;
           error := Some (if String.eqb (messageOf e) ""
                          then "An unexpected error occurred during AI analysis."
                          else messageOf e) |}
    end.

(** [a] may stand in front of [b] in the list of cost centers. *)
Definition costsAtLeast (a b : RoomWithMetrics) : Prop :=
  rm_costYearGrid (rw_metrics b) <= rm_costYearGrid (rw_metrics a).

(** ** The document store behind [useEnergyData]

    A document has a collection path, an id unique in its collection, and
    data: an object, here the list of its fields.  The database is the list
    of its documents; the order of the list carries no meaning. *)

Record Document : Type := mkDocument {
  doc_collection : string;
  doc_id : string;
  doc_data : list (string * json)
}.

Definition Firestore : Type := list Document.

Definition docKey (d : Document) : string * string :=
  (doc_collection d, doc_id d).

(** No two documents of a collection share an id. *)
Definition wellFormed (db : Firestore) : Prop := NoDup (map docKey db).

(** [doc(db, path, id)] refers to [d]. *)
Definition refersTo (path id : string) (d : Document) : bool :=
  String.eqb (doc_collection d) path && String.eqb (doc_id d) id.

Definition getDoc (path id : string) (db : Firestore) : option Document :=
  find (refersTo path id) db.

(** [deleteDoc(doc(db, path, id))] *)
Definition deleteDoc (path id : string) (db : Firestore) : Firestore :=
  filter (fun d => negb (refersTo path id d)) db.

(** The documents of [collection(db, path)]. *)
Definition collectionDocs (path : string) (db : Firestore) : list Document :=
  filter (fun d => String.eqb (doc_collection d) path) db.

(** [{ ...a, ...b }]: the fields of [b] take precedence. *)
Definition spread (a b : list (string * json)) : list (string * json) :=
  (b ++ a)%list.

(** [setDoc(doc(db, path, id), data, { merge: true })] *)
Definition setDocMerge (path id : string) (data : list (string * json))
    (db : Firestore) : Firestore :=
  match getDoc path id db with
  | Some _ =>
      map (fun d =>
             if refersTo path id d
             then {| doc_collection := path; doc_id := id;
                     doc_data := spread (doc_data d) data |}
             else d)
          db
  | None => (db ++ [mkDocument path id data])%list
  end.

Definition appId : string := "solar-energy-planner".

Definition roomCollectionPath (userId : string) : string :=
  String.append "/artifacts/"
    (String.append appId (String.append "/users/" (String.append userId "/rooms"))).

Definition deviceCollectionPath (userId : string) : string :=
  String.append "/artifacts/"
    (String.append appId (String.append "/users/" (String.append userId "/devices"))).

Definition settingsDocPath : string := "settings".

(** [initialSolarSettings], as the object that is stored and spread. *)
Definition initialSolarSettingsObject : list (string * json) :=
  [("electricityRate", JNum (Fin (lit 9.0)));
   ("solarCostPerKW", JNum (Fin (lit 70000)));
   ("efficiencyFactor", JNum (Fin (lit 1.0)));
   ("sunlightHours", JNum (Fin (lit 5)));
   ("lifetimeYears", JNum (Fin (lit 25)));
   ("annualInflation", JNum (Fin (lit 0.05)))].

(** [where("roomId", "==", roomId)] *)
Definition hasRoomId (roomId : string) (d : Document) : bool :=
  match lookupMember "roomId" (doc_data d) with
  | Some (JStr s) => String.eqb s roomId
  | _ => false
  end.

(** [deleteRoom(roomId)], up to the completion of the deletions it starts. *)
Definition deleteRoom (userId roomId : string) (db : Firestore) : Firestore :=
  let db1 := deleteDoc (roomCollectionPath userId) roomId db in
  let deviceDocs :=
    filter (hasRoomId roomId)
      (collectionDocs (deviceCollectionPath userId) db1) in
  fold_left (fun db d => deleteDoc (doc_collection d) (doc_id d) db)
    deviceDocs db1.

(** The list the rooms listener passes to [setRooms]:
    [snapshot.docs.map(doc => ({ id: doc.id, ...doc.data() }))]. *)
Definition roomList (userId : string) (db : Firestore)
  : list (list (string * json)) :=
  map (fun d => spread [("id", JStr (doc_id d))] (doc_data d))
      (collectionDocs (roomCollectionPath userId) db).

(** The settings listener on a snapshot of the settings document: the
    database it leaves and the value it passes to [setSolarSettings]. *)
Definition settingsListener (userId : string) (db : Firestore)
  : Firestore * list (string * json) :=
  match getDoc (roomCollectionPath userId) settingsDocPath db with
  | Some docSnap => (db, spread initialSolarSettingsObject (doc_data docSnap))
  | None =>
      (setDocMerge (roomCollectionPath userId) settingsDocPath
         initialSolarSettingsObject db,
       initialSolarSettingsObject)
  end.

(** [updateSolarSettings(data)] *)
Definition updateSolarSettings (userId : string) (data : list (string * json))
    (db : Firestore) : Firestore :=
  setDocMerge (roomCollectionPath userId) settingsDocPath data db.

(** Every device document names, in its [roomId] field, the id of a
    document of the rooms collection. *)
Definition noOrphans (userId : string) (db : Firestore) : Prop :=
  forall device,
    In device (collectionDocs (deviceCollectionPath userId) db) ->
    exists room,
      In room (collectionDocs (roomCollectionPath userId) db) /\
      hasRoomId (doc_id room) device = true.

(** ** The engine in double precision

    The same code, [calculateDeviceMetrics] and [calculateBuildingTotals],
    on binary64 numbers with IEEE rounding, for stating where the exact
    arithmetic above and the doubles of the source part ways.  A decimal
    literal denotes the nearest double, as in JavaScript.  The [for] loop keeps
    its condition [i < lifetimeYears] and runs on fuel: [None] when the fuel
    is used up before the condition fails. *)
Module Binary64.
Import Floats.
#[local] Open Scope float_scope.
#[local] Set Warnings "-inexact-float".

Record Device : Type := mkDevice {
  d_id : string;
  d_roomId : string;
  d_name : string;
  d_quantity : float;
  d_powerW : float;
  d_usageHours : float
}.

Record SolarSettings : Type := mkSettings {
  electricityRate : float;
  solarCostPerKW : float;
  efficiencyFactor : float;
  sunlightHours : float;
  lifetimeYears : float;
  annualInflation : float
}.

Record DeviceMetrics : Type := mkDeviceMetrics {
  energyKWhDay : float;
  costDay : float;
  costMonth : float;
  costYear : float
}.

(** [{ ...device, metrics }] *)
Record DeviceWithMetrics : Type := mkDeviceWithMetrics {
  dm_device : Device;
  dm_metrics : DeviceMetrics
}.

Record RoomMetrics : Type := mkRoomMetrics {
  rm_energyKWhDay : float;
  rm_costYearGrid : float;
  rm_requiredCapacityKW : float;
  rm_installationCost : float;
  rm_roiYears : float;
  rm_yearlySavings : float
}.

(** [{ ...room, devices, metrics }] *)
Record RoomWithMetrics : Type := mkRoomWithMetrics {
  rw_room : Room;
  rw_devices : list DeviceWithMetrics;
  rw_metrics : RoomMetrics
}.

Record BuildingMetrics : Type := mkBuildingMetrics {
  totalEnergyKWhDay : float;
  totalCostYearGrid : float;
  totalRequiredCapacityKW : float;
  totalInstallationCost : float;
  totalROIYears : float;
  longTermSavings : float;
  paybackYears : float;
  yearlySavings : float
}.

Record BuildingTotals : Type := mkBuildingTotals {
  rooms : list RoomWithMetrics;
  building : BuildingMetrics
}.

(** [Math.min(a, b)] for a second argument that is not a zero (it is 999 in
    the source). *)
Definition Math_min (a b : float) : float :=
  if is_nan a || is_nan b then nan
  else if b <? a then b else a.

Definition calculateDeviceMetrics (device : Device) (rate : float) : DeviceMetrics :=
  let powerKW := d_powerW device / 1000 in
  let energyKWhDay := powerKW * d_quantity device * d_usageHours device in
  let costDay := energyKWhDay * rate in
  {| energyKWhDay := energyKWhDay;
     costDay := costDay;
     costMonth := costDay * (365.25 / 12);
     costYear := costDay * 365.25 |}.

Definition deviceStep (rate : float) (acc : float * float) (device : Device)
  : (float * float) * DeviceWithMetrics :=
  let '(roomEnergyKWhDay, roomCostYearGrid) := acc in
  let metrics := calculateDeviceMetrics device rate in
  ((roomEnergyKWhDay + energyKWhDay metrics,
    roomCostYearGrid + costYear metrics),
   {| dm_device := device; dm_metrics := metrics |}).

Definition roomDevicesOf (devices : list Device) (room : Room) : list Device :=
  filter (fun d => String.eqb (d_roomId d) (r_id room)) devices.

Definition roomStep (devices : list Device) (solarSettings : SolarSettings)
    (acc : float * float) (room : Room) : (float * float) * RoomWithMetrics :=
  let '(totalEnergyKWhDay, totalCostYearGrid) := acc in
  let roomDevices := roomDevicesOf devices room in
  let '((roomEnergyKWhDay, roomCostYearGrid), devicesWithMetrics) :=
    mapAccum (deviceStep (electricityRate solarSettings)) (0, 0) roomDevices in
  let annualConsumptionKWh := roomEnergyKWhDay * 365.25 in
  let annualGenerationPerKW :=
    365.25 * sunlightHours solarSettings * efficiencyFactor solarSettings in
  let requiredCapacityKW :=
    if 0 <? annualGenerationPerKW
    then annualConsumptionKWh / annualGenerationPerKW else 0 in
  let installationCost := requiredCapacityKW * solarCostPerKW solarSettings in
  let yearlySavings := roomCostYearGrid in
  let roiYears :=
    if 0 <? yearlySavings then installationCost / yearlySavings else infinity in
  ((totalEnergyKWhDay + roomEnergyKWhDay,
    totalCostYearGrid + roomCostYearGrid),
   {| rw_room := room;
      rw_devices := devicesWithMetrics;
      rw_metrics :=
        {| rm_energyKWhDay := roomEnergyKWhDay;
           rm_costYearGrid := roomCostYearGrid;
           rm_requiredCapacityKW :=
             if 0 <? requiredCapacityKW then requiredCapacityKW else 0;
           rm_installationCost := installationCost;
           rm_roiYears := Math_min roiYears 999;
           rm_yearlySavings := yearlySavings |} |}).

(** [for (let i = 0; i < lifetimeYears; i++) { futureSavings += gridCost;
    gridCost *= (1 + annualInflation); }], from the state [(i, futureSavings,
    gridCost)]; the result is [futureSavings]. *)
Fixpoint savingsLoop (fuel : nat) (lifetimeYears annualInflation : float)
    (i futureSavings gridCost : float) : option float :=
  if i <? lifetimeYears
  then match fuel with
       | O => None
       | S fuel' =>
           savingsLoop fuel' lifetimeYears annualInflation
             (i + 1) (futureSavings + gridCost)
             (gridCost * (1 + annualInflation))
       end
  else Some futureSavings.

Definition calculateBuildingTotals (fuel : nat) (rooms : list Room)
    (devices : list Device) (solarSettings : SolarSettings)
  : option BuildingTotals :=
  let '((totalEnergyKWhDay, totalCostYearGrid), roomsWithMetrics) :=
    mapAccum (roomStep devices solarSettings) (0, 0) rooms in
  let totalAnnualConsumptionKWh := totalEnergyKWhDay * 365.25 in
  let annualGenerationPerKW :=
    365.25 * sunlightHours solarSettings * efficiencyFactor solarSettings in
  let totalRequiredCapacityKW :=
    if 0 <? annualGenerationPerKW
    then totalAnnualConsumptionKWh / annualGenerationPerKW else 0 in
  let totalInstallationCost :=
    totalRequiredCapacityKW * solarCostPerKW solarSettings in
  let totalYearlySavings := totalCostYearGrid in
  let totalROIYears :=
    if 0 <? totalYearlySavings
    then totalInstallationCost / totalYearlySavings else infinity in
  match savingsLoop fuel (lifetimeYears solarSettings)
          (annualInflation solarSettings) 0 0 totalCostYearGrid with
  | None => None
  | Some futureSavings =>
      let longTermSavings := futureSavings - totalInstallationCost in
      Some
        {| rooms := roomsWithMetrics;
           building :=
             {| totalEnergyKWhDay := totalEnergyKWhDay;
                totalCostYearGrid := totalCostYearGrid;
                totalRequiredCapacityKW := totalRequiredCapacityKW;
                totalInstallationCost := totalInstallationCost;
                totalROIYears := Math_min totalROIYears 999;
                longTermSavings := longTermSavings;
                paybackYears := totalROIYears;
                yearlySavings := totalYearlySavings |} |}
  end.

Definition initialSolarSettings : SolarSettings :=
  {| electricityRate := 9.0;
     solarCostPerKW := 70000;
     efficiencyFactor := 1.0;
     sunlightHours := 5;
     lifetimeYears := 25;
     annualInflation := 0.05 |}.

End Binary64.

(** ** Facts about the numbers *)

(** Equalities between computed values: evaluate, then compare the finite
    numbers as rationals. *)
Ltac by_evaluation :=
  vm_compute;
  repeat first [ reflexivity | apply Qc_is_canon; reflexivity | f_equal ].

Lemma Qc_lt_irrefl (x : Qc) : ~ x < x.
Proof. intro H. exact (Qclt_not_eq x x H eq_refl). Qed.

Lemma Qc_gtb_true (x y : Qc) : (x >? y) = true <-> y < x.
Proof.
  unfold Qc_gtb. rewrite (Qcgt_alt x y).
  destruct (x ?= y); split; intro H; try reflexivity; discriminate H.
Qed.

Lemma Qc_ltb_true (x y : Qc) : (x <? y) = true <-> x < y.
Proof.
  unfold Qc_ltb. rewrite (Qclt_alt x y).
  destruct (x ?= y); split; intro H; try reflexivity; discriminate H.
Qed.

Lemma Qc_gtb_irrefl (x : Qc) : (x >? x) = false.
Proof.
  destruct (x >? x) eqn:E; [|reflexivity].
  apply Qc_gtb_true in E. exfalso. exact (Qc_lt_irrefl x E).
Qed.

Lemma Qc_gtb_nonzero (x : Qc) : (x >? 0) = true -> Qc_eq_bool x 0 = false.
Proof.
  intro H. apply Qc_gtb_true in H.
  destruct (Qc_eq_bool x 0) eqn:E; [|reflexivity].
  apply Qc_eq_bool_correct in E. subst x. exfalso. exact (Qc_lt_irrefl 0 H).
Qed.

Lemma num_ltb_true (a b : number) : num_ltb a b = true <-> num_lt a b.
Proof.
  split.
  - destruct a, b; simpl; intro H; try discriminate H; constructor.
    now apply Qc_ltb_true.
  - intro H. destruct H; simpl; try reflexivity. now apply Qc_ltb_true.
Qed.

Lemma num_ltb_false (a b : number) : num_ltb a b = false <-> ~ num_lt a b.
Proof.
  rewrite <- num_ltb_true. destruct (num_ltb a b); split; intro H;
    try reflexivity; try discriminate H; try (intro H'; discriminate H').
  exfalso. now apply H.
Qed.

Lemma num_lt_asym (a b : number) : num_lt a b -> ~ num_lt b a.
Proof.
  intros H H'. destruct H; inversion H'; subst.
  apply (Qc_lt_irrefl x). eapply Qclt_trans; eassumption.
Qed.

Lemma num_lt_irrefl (a : number) : ~ num_lt a a.
Proof. intro H. exact (num_lt_asym a a H H). Qed.

(** Below the ceiling [Math.min] returns its first argument. *)
Lemma Math_min_le (a b : number) : num_le a b -> Math_min a b = a.
Proof.
  intros [H | [-> Hn]].
  - assert (Hf : num_ltb b a = false) by (apply num_ltb_false, num_lt_asym, H).
    destruct H; simpl in *; try rewrite Hf; reflexivity.
  - assert (Hf : num_ltb b b = false) by (apply num_ltb_false, num_lt_irrefl).
    destruct b; simpl in *; try rewrite Hf; reflexivity.
Qed.

(** Conversely, when [Math.min] returns its first argument and that argument
    is not NaN, it was below the ceiling. *)
Lemma Math_min_fixed (a : number) (c : Qc) :
  a <> NaN -> Math_min a (Fin c) = a -> num_le a (Fin c).
Proof.
  intro Hn. destruct a as [q| | |]; simpl.
  - destruct (c <? q) eqn:E; intro H.
    + injection H as ->. apply Qc_ltb_true in E. now apply Qc_lt_irrefl in E.
    + destruct (Qc_eq_dec q c) as [->|Hne].
      * right. split; [reflexivity | discriminate].
      * left. constructor.
        destruct (Qclt_le_dec q c) as [Hlt|Hle]; [exact Hlt|].
        exfalso. apply Qcle_lt_or_eq in Hle. destruct Hle as [Hlt|Heq].
        -- apply Qc_ltb_true in Hlt. congruence.
        -- now apply Hne.
  - discriminate.
  - intros _. left. constructor.
  - now elim Hn.
Qed.

(** ** The accumulating maps, in closed form *)

Lemma mapAccum_ext {S A B : Type} (f g : S -> A -> S * B) (l : list A) :
  (forall a, In a l -> forall s, f s a = g s a) ->
  forall s, mapAccum f s l = mapAccum g s l.
Proof.
  induction l as [|a l IH]; intros H s; simpl; [reflexivity|].
  rewrite (H a (or_introl eq_refl) s). destruct (g s a) as [s1 b].
  rewrite IH; [reflexivity|]. intros a' Ha'. apply H. now right.
Qed.

Lemma mapAccum_deviceStep (rate : Qc) (ds : list Device) (e c : Qc) :
  mapAccum (deviceStep rate) (e, c) ds =
  ((e + sumQc (map (fun d => energyKWhDay (calculateDeviceMetrics d rate)) ds),
    c + sumQc (map (fun d => costYear (calculateDeviceMetrics d rate)) ds)),
   map (deviceOutput rate) ds).
Proof.
  revert e c. induction ds as [|d ds IH]; intros e c; simpl.
  - now rewrite !Qcplus_0_r.
  - rewrite IH, <- !Qcplus_assoc. reflexivity.
Qed.

Lemma roomStep_output (devices : list Device) (s : SolarSettings)
    (te tc : Qc) (room : Room) :
  roomStep devices s (te, tc) room =
  ((te + rm_energyKWhDay (rw_metrics (roomOutput devices s room)),
    tc + rm_costYearGrid (rw_metrics (roomOutput devices s room))),
   roomOutput devices s room).
Proof.
  unfold roomOutput, roomStep.
  destruct (mapAccum (deviceStep (electricityRate s)) (0, 0)
              (roomDevicesOf devices room)) as [[e c] dws].
  reflexivity.
Qed.

Lemma mapAccum_roomStep (devices : list Device) (s : SolarSettings)
    (rs : list Room) (te tc : Qc) :
  mapAccum (roomStep devices s) (te, tc) rs =
  ((te + sumQc (map (fun r => rm_energyKWhDay (rw_metrics (roomOutput devices s r))) rs),
    tc + sumQc (map (fun r => rm_costYearGrid (rw_metrics (roomOutput devices s r))) rs)),
   map (roomOutput devices s) rs).
Proof.
  revert te tc. induction rs as [|r rs IH]; intros te tc;
    cbn [mapAccum map sumQc fold_right].
  - now rewrite !Qcplus_0_r.
  - rewrite roomStep_output, IH, <- !Qcplus_assoc. reflexivity.
Qed.

(** The metrics of an output room, from the room's own energy and cost. *)
Lemma roomOutput_metrics (devices : list Device) (s : SolarSettings) (room : Room) :
  let m := rw_metrics (roomOutput devices s room) in
  let requiredCapacityKW :=
    capacityFor (rm_energyKWhDay m * lit 365.25) (generationPerKW s) in
  rm_requiredCapacityKW m =
    (if requiredCapacityKW >? 0 then requiredCapacityKW else 0) /\
  rm_installationCost m = requiredCapacityKW * solarCostPerKW s /\
  rm_yearlySavings m = rm_costYearGrid m /\
  rm_roiYears m =
    Math_min (roiFor (rm_installationCost m) (rm_yearlySavings m)) (Fin (lit 999)).
Proof.
  unfold roomOutput, roomStep, generationPerKW.
  destruct (mapAccum (deviceStep (electricityRate s)) (0, 0)
              (roomDevicesOf devices room)) as [[e c] dws].
  simpl. repeat split; reflexivity.
Qed.

Lemma roomOutput_room (devices : list Device) (s : SolarSettings) (room : Room) :
  roomOf (roomOutput devices s room) = room.
Proof.
  unfold roomOutput, roomStep.
  destruct (mapAccum (deviceStep (electricityRate s)) (0, 0)
              (roomDevicesOf devices room)) as [[e c] dws].
  destruct room; reflexivity.
Qed.

(** [calculateBuildingTotals] with its accumulators in closed form. *)
Lemma calculateBuildingTotals_closed (rs : list Room) (devices : list Device)
    (s : SolarSettings) :
  let out := map (roomOutput devices s) rs in
  let te := sumQc (map (fun r => rm_energyKWhDay (rw_metrics r)) out) in
  let tc := sumQc (map (fun r => rm_costYearGrid (rw_metrics r)) out) in
  let cap := capacityFor (te * lit 365.25) (generationPerKW s) in
  let roi := roiFor (cap * solarCostPerKW s) tc in
  calculateBuildingTotals rs devices s =
  {| rooms := out;
     building :=
       {| totalEnergyKWhDay := te;
          totalCostYearGrid := tc;
          totalRequiredCapacityKW := cap;
          totalInstallationCost := cap * solarCostPerKW s;
          totalROIYears := Math_min roi (Fin (lit 999));
          longTermSavings :=
            fst (savingsLoop (loopTrips (lifetimeYears s)) (annualInflation s) 0 tc)
            - cap * solarCostPerKW s;
          paybackYears := roi;
          yearlySavings := tc |} |}.
Proof.
  intros out te tc cap roi. subst out te tc cap roi.
  unfold calculateBuildingTotals, generationPerKW.
  rewrite mapAccum_roomStep, !Qcplus_0_l, !map_map. reflexivity.
Qed.

(** ** Payback period and displayed ROI *)

(** C1 (counterexample).  For a building without rooms and the default
    settings, the yearly savings are 0, so the ratio is [Infinity]:
    [paybackYears] is [Infinity] while the returned [totalROIYears] is 999.
    The two fields differ. *)
Lemma paybackYears_differs_from_totalROIYears :
  let b := building (calculateBuildingTotals [] [] initialSolarSettings) in
  paybackYears b = Infinity /\
  totalROIYears b = Fin (lit 999) /\
  paybackYears b <> totalROIYears b.
Proof.
  cbv zeta. repeat split. discriminate.
Qed.

(** The same with a finite ratio above the ceiling: one room, two 1500 W
    devices used six hours a day, and solar at 20,000,000 per kW. *)
Example paybackYears_above_ceiling :
  let s := {| electricityRate := lit 9; solarCostPerKW := lit 20000000;
              efficiencyFactor := 1; sunlightHours := lit 5;
              lifetimeYears := lit 25; annualInflation := lit 0.05 |} in
  let b := building
             (calculateBuildingTotals
                [mkRoom "r1" "Lab A" "Lab"]
                [mkDevice "d1" "r1" "Heater" (lit 2) (lit 1500) (lit 6)] s) in
  paybackYears b = Fin (lit (16000000 # 13149)) /\
  totalROIYears b = Fin (lit 999).
Proof.
  cbv zeta. split; by_evaluation.
Qed.

Lemma roiFor_not_NaN (installationCost yearlySavings : Qc) :
  roiFor installationCost yearlySavings <> NaN.
Proof. unfold roiFor. destruct (yearlySavings >? 0); discriminate. Qed.

(** C1 (amended).  [paybackYears] is the unclamped ratio
    [totalInstallationCost / totalYearlySavings] ([Infinity] when the yearly
    savings are not positive); the returned [totalROIYears] is
    [Math.min(paybackYears, 999)], and the two fields are equal exactly when
    [paybackYears] is at most 999. *)
Theorem paybackYears_is_unclamped_ratio (rs : list Room) (devices : list Device)
    (s : SolarSettings) :
  let b := building (calculateBuildingTotals rs devices s) in
  paybackYears b = roiFor (totalInstallationCost b) (yearlySavings b) /\
  totalROIYears b = Math_min (paybackYears b) (Fin (lit 999)) /\
  (paybackYears b = totalROIYears b <-> num_le (paybackYears b) (Fin (lit 999))).
Proof.
  rewrite calculateBuildingTotals_closed. cbn [building paybackYears
    totalROIYears totalInstallationCost yearlySavings].
  repeat split.
  - intro H. apply Math_min_fixed; [apply roiFor_not_NaN | now symmetry].
  - intro H. symmetry. now apply Math_min_le.
Qed.

(** ** Capacity sizing is additive *)

Lemma capacityFor_zero (c g : Qc) : capacityFor (0 * c) g = 0.
Proof.
  unfold capacityFor. destruct (g >? 0); [|reflexivity].
  unfold Qcdiv. ring.
Qed.

Lemma capacityFor_plus (x y c g : Qc) :
  capacityFor ((x + y) * c) g = capacityFor (x * c) g + capacityFor (y * c) g.
Proof.
  unfold capacityFor. destruct (g >? 0); unfold Qcdiv; ring.
Qed.

Lemma installationCost_sum (energies : list Qc) (c g k : Qc) :
  capacityFor (sumQc energies * c) g * k =
  sumQc (map (fun e => capacityFor (e * c) g * k) energies).
Proof.
  induction energies as [|e es IH]; cbn [sumQc fold_right map].
  - rewrite capacityFor_zero. ring.
  - fold (sumQc es). fold (sumQc (map (fun e => capacityFor (e * c) g * k) es)).
    rewrite capacityFor_plus, <- IH. ring.
Qed.

(** C3.  The building's [totalInstallationCost] is the sum of the rooms'
    [installationCost]. *)
Theorem totalInstallationCost_is_sum_of_rooms (rs : list Room)
    (devices : list Device) (s : SolarSettings) :
  let result := calculateBuildingTotals rs devices s in
  totalInstallationCost (building result) =
  sumQc (map (fun r => rm_installationCost (rw_metrics r)) (rooms result)).
Proof.
  rewrite calculateBuildingTotals_closed.
  cbn [building rooms totalInstallationCost].
  rewrite installationCost_sum, !map_map. f_equal.
  apply map_ext. intro room.
  now destruct (roomOutput_metrics devices s room) as (_ & -> & _).
Qed.

(** ** The ROI clamp *)

(** C4.  In every returned room the [roiYears] field is the clamp of the
    pre-clamp ratio; when the room's [yearlySavings] is 0 the pre-clamp value
    is [Infinity] and the field is 999; when the pre-clamp value is at most
    999 the field is that value. *)
Theorem room_roiYears_clamp (rs : list Room) (devices : list Device)
    (s : SolarSettings) :
  Forall
    (fun r =>
       let m := rw_metrics r in
       let roiYears := roiFor (rm_installationCost m) (rm_yearlySavings m) in
       rm_roiYears m = Math_min roiYears (Fin (lit 999)) /\
       (rm_yearlySavings m = 0 ->
        roiYears = Infinity /\ rm_roiYears m = Fin (lit 999)) /\
       (num_le roiYears (Fin (lit 999)) -> rm_roiYears m = roiYears))
    (rooms (calculateBuildingTotals rs devices s)).
Proof.
  rewrite calculateBuildingTotals_closed. cbn [rooms].
  apply Forall_forall. intros r Hr. apply in_map_iff in Hr.
  destruct Hr as (room & <- & _).
  destruct (roomOutput_metrics devices s room) as (_ & _ & _ & Hroi).
  cbv zeta. split; [exact Hroi|]. split.
  - intro H0. rewrite Hroi, H0. unfold roiFor. rewrite Qc_gtb_irrefl.
    split; reflexivity.
  - intro Hle. rewrite Hroi. now apply Math_min_le.
Qed.

(** Two rooms under the default settings: an empty one (no savings, ROI
    [Infinity], shown as 999) and one that pays back in 61600/13149 years,
    about 4.7, which the clamp leaves alone. *)
Example room_roiYears_examples :
  map (fun r => rm_roiYears (rw_metrics r))
    (rooms
       (calculateBuildingTotals
          [mkRoom "r0" "Store" "Office"; mkRoom "r1" "Lab A" "Lab"]
          [mkDevice "d1" "r1" "Heater" (lit 2) (lit 1500) (lit 6)]
          {| electricityRate := lit 9; solarCostPerKW := lit 77000;
             efficiencyFactor := 1; sunlightHours := lit 5;
             lifetimeYears := lit 25; annualInflation := lit 0.05 |}))
  = [Fin (lit 999); Fin (lit (61600 # 13149))].
Proof.
  by_evaluation.
Qed.

(** ** Device metrics *)

(** C5.  The four fields of [calculateDeviceMetrics], and the zero cases. *)
Theorem calculateDeviceMetrics_formulas (device : Device) (rate : Qc) :
  let m := calculateDeviceMetrics device rate in
  energyKWhDay m =
    (d_powerW device / lit 1000) * d_quantity device * d_usageHours device /\
  costDay m = energyKWhDay m * rate /\
  costMonth m = costDay m * lit 365.25 / lit 12 /\
  costYear m = costDay m * lit 365.25 /\
  (d_usageHours device = 0 \/ d_quantity device = 0 ->
   energyKWhDay m = 0 /\ costDay m = 0 /\ costMonth m = 0 /\ costYear m = 0).
Proof.
  unfold calculateDeviceMetrics. cbn [energyKWhDay costDay costMonth costYear].
  repeat split; try (unfold Qcdiv; ring);
    destruct H as [-> | ->]; unfold Qcdiv; ring.
Qed.

(** ** The multi-year projection *)

Lemma this_ofZ (z : Z) : (this (ofZ z) == inject_Z z)%Q.
Proof. unfold ofZ, Q2Qc. cbn [this]. apply Qred_correct. Qed.

(** The loop body runs for exactly the counters [i] with [i < lifetimeYears]. *)
Lemma loopTrips_spec (lifetimeYears : Qc) (i : nat) :
  (i < loopTrips lifetimeYears)%nat <-> ofZ (Z.of_nat i) < lifetimeYears.
Proof.
  unfold loopTrips, Qclt. rewrite this_ofZ.
  pose proof (Qle_ceiling lifetimeYears) as Hle.
  pose proof (Qceiling_lt lifetimeYears) as Hlt.
  split; intro H.
  - assert (Hz : (Z.of_nat i <= Qceiling lifetimeYears - 1)%Z) by lia.
    rewrite Zle_Qle in Hz. eapply Qle_lt_trans; eassumption.
  - assert (Hz : (Z.of_nat i < Qceiling lifetimeYears)%Z).
    { rewrite Zlt_Qlt. eapply Qlt_le_trans; eassumption. }
    lia.
Qed.

Lemma loopTrips_ofZ (z : Z) : loopTrips (ofZ z) = Z.to_nat z.
Proof.
  unfold loopTrips. now rewrite (Qceiling_comp _ _ (this_ofZ z)), Qceiling_Z.
Qed.

Lemma sumQc_shift (f : nat -> Qc) (a n : nat) :
  sumQc (map f (seq (S a) n)) = sumQc (map (fun i => f (S i)) (seq a n)).
Proof. now rewrite <- seq_shift, map_map. Qed.

Lemma sumQc_scale (k : Qc) (f : nat -> Qc) (l : list nat) :
  sumQc (map (fun i => k * f i) l) = k * sumQc (map f l).
Proof.
  induction l as [|i l IH]; cbn [map sumQc fold_right]; [ring|].
  fold (sumQc (map (fun i => k * f i) l)). fold (sumQc (map f l)).
  rewrite IH. ring.
Qed.

(** The loop adds the compounded sum to [futureSavings]. *)
Lemma savingsLoop_sum (trips : nat) (inflation : Qc) :
  forall futureSavings gridCost,
    fst (savingsLoop trips inflation futureSavings gridCost) =
    futureSavings + compoundedSum gridCost inflation trips.
Proof.
  unfold compoundedSum.
  induction trips as [|n IH]; intros fs g.
  - cbn. ring.
  - cbn [savingsLoop]. rewrite IH.
    cbn [seq map sumQc fold_right].
    fold (sumQc (map (fun i => g * (1 + inflation) ^ i) (seq 1 n))).
    rewrite sumQc_shift. cbn [Qcpower].
    rewrite (sumQc_scale g), (sumQc_scale (g * (1 + inflation))).
    rewrite (sumQc_scale (1 + inflation)). ring.
Qed.

Lemma ofZ_succ (n : nat) : ofZ (Z.of_nat (S n)) = 1 + ofZ (Z.of_nat n).
Proof.
  apply Qc_is_canon. unfold Qcplus. cbn [this Q2Qc].
  rewrite !Qred_correct, !this_ofZ, Nat2Z.inj_succ, <- Z.add_1_l.
  rewrite inject_Z_plus. reflexivity.
Qed.

(** Without inflation every year costs the same. *)
Lemma compoundedSum_flat (gridCost : Qc) (n : nat) :
  compoundedSum gridCost 0 n = ofZ (Z.of_nat n) * gridCost.
Proof.
  unfold compoundedSum. rewrite (sumQc_scale gridCost).
  assert (H : forall a, sumQc (map (fun i => (1 + 0) ^ i) (seq a n))
                        = ofZ (Z.of_nat n)).
  { induction n as [|n IH]; intro a.
    - apply Qc_is_canon. reflexivity.
    - cbn [seq map sumQc fold_right].
      fold (sumQc (map (fun i => (1 + 0) ^ i) (seq (S a) n))).
      rewrite IH, ofZ_succ, Qcplus_0_r, Qcpower_1. reflexivity. }
  rewrite H. ring.
Qed.

(** C6 (amended).  In exact arithmetic, with an integer lifetime [L > 0],
    the loop accumulates
    [sum over i < L of totalCostYearGrid * (1 + annualInflation)^i],
    [longTermSavings] is that sum minus [totalInstallationCost], and with no
    inflation it is [lifetimeYears * totalCostYearGrid - totalInstallationCost].
    (On doubles the [L] rounded additions of the loop need not give the
    product; the last section of the file has the case.) *)
Theorem longTermSavings_projection (rs : list Room) (devices : list Device)
    (s : SolarSettings) (L : Z) :
  (0 < L)%Z ->
  lifetimeYears s = ofZ L ->
  let b := building (calculateBuildingTotals rs devices s) in
  let futureSavings :=
    compoundedSum (totalCostYearGrid b) (annualInflation s) (Z.to_nat L) in
  fst (savingsLoop (loopTrips (lifetimeYears s)) (annualInflation s) 0
         (totalCostYearGrid b)) = futureSavings /\
  longTermSavings b = futureSavings - totalInstallationCost b /\
  (annualInflation s = 0 ->
   longTermSavings b =
   lifetimeYears s * totalCostYearGrid b - totalInstallationCost b).
Proof.
  intros HL Hlife. rewrite calculateBuildingTotals_closed.
  cbn [building totalCostYearGrid longTermSavings totalInstallationCost].
  rewrite savingsLoop_sum, Qcplus_0_l, Hlife, loopTrips_ofZ.
  repeat split. intros ->.
  rewrite compoundedSum_flat, Z2Nat.id by lia. reflexivity.
Qed.

(** C6 (witness): a lifetime of three years at the default tariff. *)
Lemma longTermSavings_projection_witness :
  let s := {| electricityRate := lit 9; solarCostPerKW := lit 70000;
              efficiencyFactor := 1; sunlightHours := lit 5;
              lifetimeYears := ofZ 3; annualInflation := lit 0.05 |} in
  let b := building
             (calculateBuildingTotals
                [mkRoom "r1" "Lab A" "Lab"]
                [mkDevice "d1" "r1" "Heater" (lit 2) (lit 1500) (lit 6)] s) in
  longTermSavings b =
  compoundedSum (totalCostYearGrid b) (annualInflation s) 3
  - totalInstallationCost b.
Proof.
  cbv zeta.
  refine (proj1 (proj2
    (longTermSavings_projection
       [mkRoom "r1" "Lab A" "Lab"]
       [mkDevice "d1" "r1" "Heater" (lit 2) (lit 1500) (lit 6)]
       {| electricityRate := lit 9; solarCostPerKW := lit 70000;
          efficiencyFactor := 1; sunlightHours := lit 5;
          lifetimeYears := ofZ 3; annualInflation := lit 0.05 |}
       3%Z _ _))).
  - reflexivity.
  - reflexivity.
Defined.

(** ** No quotient has a zero divisor *)

Lemma checked_capacityFor (c g : Qc) :
  Checked.capacityFor c g = Normal (capacityFor c g).
Proof.
  unfold Checked.capacityFor, capacityFor, Checked.divide.
  destruct (g >? 0) eqn:E; [|reflexivity].
  now rewrite (Qc_gtb_nonzero g E).
Qed.

Lemma checked_roiFor (i y : Qc) : Checked.roiFor i y = Normal (roiFor i y).
Proof.
  unfold Checked.roiFor, roiFor, Checked.divide.
  destruct (y >? 0) eqn:E; [|reflexivity].
  now rewrite (Qc_gtb_nonzero y E).
Qed.

Lemma checked_roomStep (devices : list Device) (s : SolarSettings)
    (acc : Qc * Qc) (room : Room) :
  Checked.roomStep devices s acc room = Normal (roomStep devices s acc room).
Proof.
  unfold Checked.roomStep, roomStep. destruct acc as [te tc].
  destruct (mapAccum (deviceStep (electricityRate s)) (0, 0)
              (roomDevicesOf devices room)) as [[e c] dws].
  rewrite checked_capacityFor. cbn [bind].
  rewrite checked_roiFor. reflexivity.
Qed.

Lemma checked_mapAccumM {S A B : Type} (f : S -> A -> Checked.M (S * B))
    (g : S -> A -> S * B) :
  (forall s a, f s a = Normal (g s a)) ->
  forall l s, Checked.mapAccumM f s l = Normal (mapAccum g s l).
Proof.
  intros Hfg l. induction l as [|a l IH]; intro s; cbn [Checked.mapAccumM mapAccum].
  - reflexivity.
  - rewrite Hfg. cbn [bind]. destruct (g s a) as [s1 b].
    rewrite IH. cbn [bind]. now destruct (mapAccum g s1 l) as [s2 bs].
Qed.

(** The run with checked quotients completes, with the result of the
    unchecked code: every divisor was guarded by [> 0]. *)
Lemma checked_calculateBuildingTotals (rs : list Room) (devices : list Device)
    (s : SolarSettings) :
  Checked.calculateBuildingTotals rs devices s =
  Normal (calculateBuildingTotals rs devices s).
Proof.
  unfold Checked.calculateBuildingTotals, calculateBuildingTotals.
  rewrite (checked_mapAccumM _ _ (checked_roomStep devices s)). cbn [bind].
  destruct (mapAccum (roomStep devices s) (0, 0) rs) as [[te tc] out].
  rewrite checked_capacityFor. cbn [bind].
  rewrite checked_roiFor. reflexivity.
Qed.

Lemma generationPerKW_zero (s : SolarSettings) :
  sunlightHours s = 0 \/ efficiencyFactor s = 0 -> generationPerKW s = 0.
Proof. unfold generationPerKW. intros [-> | ->]; ring. Qed.

Lemma capacityFor_no_generation (c : Qc) : capacityFor c 0 = 0.
Proof. reflexivity. Qed.

(** C7.  Without sunlight or without efficiency the required capacity is 0
    in every returned room and for the building, and the run in which a zero
    divisor would stop the computation completes with the same result. *)
Theorem no_generation_no_capacity (rs : list Room) (devices : list Device)
    (s : SolarSettings) :
  sunlightHours s = 0 \/ efficiencyFactor s = 0 ->
  let result := calculateBuildingTotals rs devices s in
  Checked.calculateBuildingTotals rs devices s = Normal result /\
  Forall (fun r => rm_requiredCapacityKW (rw_metrics r) = 0) (rooms result) /\
  totalRequiredCapacityKW (building result) = 0.
Proof.
  intros Hz result. subst result.
  split; [apply checked_calculateBuildingTotals|].
  pose proof (generationPerKW_zero s Hz) as Hg.
  rewrite calculateBuildingTotals_closed.
  cbn [rooms building totalRequiredCapacityKW]. rewrite Hg. split.
  - apply Forall_forall. intros r Hr. apply in_map_iff in Hr.
    destruct Hr as (room & <- & _).
    destruct (roomOutput_metrics devices s room) as (-> & _).
    rewrite Hg, capacityFor_no_generation. reflexivity.
  - apply capacityFor_no_generation.
Qed.

(** C7 (witness): no sunlight, one room with one device. *)
Lemma no_generation_no_capacity_witness :
  let s := {| electricityRate := lit 9; solarCostPerKW := lit 70000;
              efficiencyFactor := 1; sunlightHours := 0;
              lifetimeYears := lit 25; annualInflation := lit 0.05 |} in
  let rs := [mkRoom "r1" "Lab A" "Lab"] in
  let ds := [mkDevice "d1" "r1" "Heater" (lit 2) (lit 1500) (lit 6)] in
  Checked.calculateBuildingTotals rs ds s
    = Normal (calculateBuildingTotals rs ds s) /\
  Forall (fun r => rm_requiredCapacityKW (rw_metrics r) = 0)
    (rooms (calculateBuildingTotals rs ds s)) /\
  totalRequiredCapacityKW (building (calculateBuildingTotals rs ds s)) = 0.
Proof.
  cbv zeta.
  apply (no_generation_no_capacity
           [mkRoom "r1" "Lab A" "Lab"]
           [mkDevice "d1" "r1" "Heater" (lit 2) (lit 1500) (lit 6)]
           {| electricityRate := lit 9; solarCostPerKW := lit 70000;
              efficiencyFactor := 1; sunlightHours := 0;
              lifetimeYears := lit 25; annualInflation := lit 0.05 |}).
  left. reflexivity.
Defined.

(** The check is live: a zero divisor does stop a run. *)
Example checked_divide_zero (a : Qc) :
  Checked.divide a 0 = Throw (Checked.ZeroDivisor a).
Proof. reflexivity. Qed.

(** ** Orphan devices *)

Lemma roomDevicesOf_known_rooms (rs : list Room) (devices : list Device)
    (room : Room) :
  In room rs ->
  roomDevicesOf (filter (hasRoom rs) devices) room = roomDevicesOf devices room.
Proof.
  intro Hin. unfold roomDevicesOf.
  induction devices as [|d ds IH]; cbn [filter]; [reflexivity|].
  destruct (hasRoom rs d) eqn:Hd; cbn [filter]; rewrite IH; [reflexivity|].
  destruct (String.eqb (d_roomId d) (r_id room)) eqn:E; [|reflexivity].
  exfalso. unfold hasRoom in Hd.
  assert (Ht : existsb (fun r => String.eqb (d_roomId d) (r_id r)) rs = true).
  { apply existsb_exists. exists room. now split. }
  congruence.
Qed.

Lemma roomStep_known_rooms (rs : list Room) (devices : list Device)
    (s : SolarSettings) (room : Room) :
  In room rs ->
  forall acc,
    roomStep devices s acc room = roomStep (filter (hasRoom rs) devices) s acc room.
Proof.
  intros Hin acc. unfold roomStep.
  now rewrite (roomDevicesOf_known_rooms rs devices room Hin).
Qed.

(** C9.  Removing the devices whose [roomId] is the id of no room changes
    nothing in the result. *)
Theorem orphan_devices_contribute_nothing (rs : list Room)
    (devices : list Device) (s : SolarSettings) :
  calculateBuildingTotals rs devices s =
  calculateBuildingTotals rs (filter (hasRoom rs) devices) s.
Proof.
  unfold calculateBuildingTotals.
  rewrite (mapAccum_ext (roomStep devices s)
             (roomStep (filter (hasRoom rs) devices) s) rs
             (fun room Hin acc => roomStep_known_rooms rs devices s room Hin acc)).
  reflexivity.
Qed.

(** An orphan device at work: the filter drops it, and the result with it
    is the result without it. *)
Example orphan_device_example :
  let rs := [mkRoom "r1" "Lab A" "Lab"] in
  let d1 := mkDevice "d1" "r1" "Heater" (lit 2) (lit 1500) (lit 6) in
  let d2 := mkDevice "d2" "gone" "Fan" (lit 4) (lit 75) (lit 8) in
  filter (hasRoom rs) [d1; d2] = [d1] /\
  calculateBuildingTotals rs [d1; d2] initialSolarSettings =
  calculateBuildingTotals rs [d1] initialSolarSettings.
Proof. cbv zeta. split; vm_compute; reflexivity. Qed.

(** ** The returned rooms *)

Lemma Forall2_map_output {A B : Type} (P : A -> B -> Prop) (f : A -> B)
    (l : list A) :
  (forall a, P a (f a)) -> Forall2 P l (map f l).
Proof.
  intro H. induction l as [|a l IH]; cbn [map]; constructor; auto.
Qed.

(** C10.  The returned rooms are the input rooms, one for one and in order,
    each with its [id], [name] and [purpose] unchanged. *)
Theorem rooms_preserved_in_order (rs : list Room) (devices : list Device)
    (s : SolarSettings) :
  let out := rooms (calculateBuildingTotals rs devices s) in
  List.length out = List.length rs /\
  Forall2
    (fun room r =>
       rw_id r = r_id room /\ rw_name r = r_name room /\
       rw_purpose r = r_purpose room)
    rs out /\
  map roomOf out = rs.
Proof.
  rewrite calculateBuildingTotals_closed. cbn [rooms]. repeat split.
  - apply length_map.
  - apply Forall2_map_output. intro room.
    pose proof (roomOutput_room devices s room) as H.
    destruct room. injection H as -> -> ->. auto.
  - rewrite map_map. rewrite <- (map_id rs) at 2.
    apply map_ext. intro room. apply roomOutput_room.
Qed.

(** ** Suggested actions *)

Lemma num_le_not_lt (a b : number) : num_le a b -> ~ num_lt b a.
Proof.
  intros [H | [-> _]]; [now apply num_lt_asym | apply num_lt_irrefl].
Qed.

Lemma num_not_lt_le (a : number) (c d : Qc) :
  ~ num_lt a (Fin c) -> num_lt a (Fin d) -> num_le (Fin c) a.
Proof.
  intros Hn Hd. destruct a as [q| | |]; inversion Hd; subst.
  - destruct (Qc_dec c q) as [[Hlt | Hgt] | ->].
    + left. now constructor.
    + exfalso. apply Hn. now constructor.
    + right. split; [reflexivity | discriminate].
  - exfalso. apply Hn. constructor.
Qed.

(** C8.  The payload entry of every room carries the action read off the
    room's [roiYears]: below 5 convert, from 5 to below 10 hybrid, otherwise
    stay on the grid. *)
Theorem suggestedAction_thresholds (toFixed : number -> nat -> string)
    (roomAnalysis : list RoomWithMetrics) :
  Forall2
    (fun r p =>
       let roiYears := rm_roiYears (rw_metrics r) in
       let solar := num_lt roiYears (Fin (lit 5)) in
       let hybrid :=
         num_le (Fin (lit 5)) roiYears /\ num_lt roiYears (Fin (lit 10)) in
       (solar -> p_suggestedAction p = "Convert to Solar") /\
       (hybrid -> p_suggestedAction p = "Hybrid Model") /\
       (~ solar /\ ~ hybrid -> p_suggestedAction p = "Stay on Grid"))
    roomAnalysis (analysisPayload toFixed roomAnalysis).
Proof.
  unfold analysisPayload. apply Forall2_map_output. intro r.
  cbv zeta. unfold payloadEntry. cbn [p_suggestedAction].
  destruct (num_ltb (rm_roiYears (rw_metrics r)) (Fin (lit 5))) eqn:E5;
    [apply num_ltb_true in E5 | apply num_ltb_false in E5];
    (destruct (num_ltb (rm_roiYears (rw_metrics r)) (Fin (lit 10))) eqn:E10;
     [apply num_ltb_true in E10 | apply num_ltb_false in E10]);
    repeat split; try reflexivity.
  - intros [H _]. now apply num_le_not_lt in H.
  - intros [H _]. now elim H.
  - intros [H _]. now apply num_le_not_lt in H.
  - intros [H _]. now elim H.
  - intro H. now elim E5.
  - intros [_ H]. elim H. split; [|assumption].
    eapply num_not_lt_le; eassumption.
  - intro H. now elim E5.
  - intros [_ H]. now elim E10.
Qed.

(** The three tiers, met by ROI values 4.3, 5, 999 (and NaN stays on the grid). *)
Example suggestedAction_examples :
  let room roi :=
    mkRoomWithMetrics "r" "Lab" "Lab" [] (mkRoomMetrics 0 0 0 0 roi 0) in
  map p_suggestedAction
    (analysisPayload (fun _ _ => "")
       [room (Fin (lit 4.3)); room (Fin (lit 5)); room (Fin (lit 999)); room NaN])
  = ["Convert to Solar"; "Hybrid Model"; "Stay on Grid"; "Stay on Grid"].
Proof. reflexivity. Qed.

(** ** The fallback of the recommendation generator *)

(** [AdvisoryFailure] lists exactly the outcomes on which the [try] throws. *)
Lemma tryBody_throws (JSON_parse : jsval -> option json) (outcome : FetchOutcome) :
  AdvisoryFailure JSON_parse outcome <->
  exists e, tryBody JSON_parse outcome = Throw e.
Proof.
  split.
  - intro H. destruct H as [ | | | result jsonText Ht Hf
                            | result jsonText Ht Hf Hp ]; cbn.
    + now exists NetworkError.
    + now exists SyntaxError.
    + now exists TypeError.
    + rewrite Ht. cbn. rewrite Hf. eauto.
    + rewrite Ht. cbn. rewrite Hf, Hp. eauto.
  - intros [e He]. destruct outcome as [|[result|]]; try constructor.
    unfold tryBody in He. cbn [bind] in He.
    destruct (candidateText result) as [jsonText|e'] eqn:Ht.
    + cbn [bind] in He. destruct (truthy jsonText) eqn:Hf.
      * destruct (JSON_parse jsonText) eqn:Hp; [discriminate|].
        eapply text_malformed; eassumption.
      * eapply text_missing; eassumption.
    + destruct result; try discriminate Ht. constructor.
Qed.

(** C2.  When the advisory call fails, [generateLLMRecommendation] returns
    the rule-based recommendation: one entry per room, each suggestion from
    the 5-year cutoff, and zero in the three aggregate fields. *)
Theorem fallback_on_advisory_failure
    (JSON_parse : jsval -> option json) (toFixed : number -> nat -> string)
    (service : list PayloadEntry -> BuildingMetrics -> FetchOutcome)
    (roomAnalysis : list RoomWithMetrics) (buildingData : BuildingMetrics) :
  AdvisoryFailure JSON_parse
    (service (analysisPayload toFixed roomAnalysis) buildingData) ->
  exists recommendation,
    generateLLMRecommendation JSON_parse toFixed service roomAnalysis buildingData
      = Normal (RuleBased recommendation) /\
    List.length (roomRecommendations recommendation) = List.length roomAnalysis /\
    Forall2
      (fun r rec =>
         roomName rec = rw_name r /\
         (num_lt (rm_roiYears (rw_metrics r)) (Fin (lit 5)) ->
          suggestion rec = "Convert to Solar (Rule-Based)") /\
         (~ num_lt (rm_roiYears (rw_metrics r)) (Fin (lit 5)) ->
          suggestion rec = "Stay on Grid (Rule-Based)"))
      roomAnalysis (roomRecommendations recommendation) /\
    totalSavings recommendation = 0 /\
    breakevenPeriod recommendation = 0 /\
    capacityNeeded recommendation = 0.
Proof.
  intro Hfail. apply tryBody_throws in Hfail. destruct Hfail as [e He].
  exists (fallback toFixed roomAnalysis).
  unfold generateLLMRecommendation. rewrite He.
  cbn [tryCatch fallback roomRecommendations totalSavings breakevenPeriod
       capacityNeeded].
  repeat split.
  - apply length_map.
  - apply Forall2_map_output. intro r.
    unfold fallbackRoom. cbn [roomName suggestion].
    destruct (num_ltb (rm_roiYears (rw_metrics r)) (Fin (lit 5))) eqn:E;
      [apply num_ltb_true in E | apply num_ltb_false in E];
      repeat split; try reflexivity; intro H; now elim H.
Qed.

(** C2 (witness): the service answers with an error document that has no
    candidates, for the rooms of a one-room building. *)
Lemma fallback_on_advisory_failure_witness :
  let result :=
    calculateBuildingTotals
      [mkRoom "r1" "Lab A" "Lab"]
      [mkDevice "d1" "r1" "Heater" (lit 2) (lit 1500) (lit 6)]
      initialSolarSettings in
  let JSON_parse := fun _ : jsval => @None json in
  let toFixed := fun (_ : number) (_ : nat) => "4.3" in
  let service := fun (_ : list PayloadEntry) (_ : BuildingMetrics) =>
    Responded (Some (JObj [("error", JObj [("code", JNum (Fin (lit 429)))])])) in
  exists recommendation,
    generateLLMRecommendation JSON_parse toFixed service
      (rooms result) (building result)
      = Normal (RuleBased recommendation) /\
    List.length (roomRecommendations recommendation) = List.length (rooms result) /\
    Forall2
      (fun r rec =>
         roomName rec = rw_name r /\
         (num_lt (rm_roiYears (rw_metrics r)) (Fin (lit 5)) ->
          suggestion rec = "Convert to Solar (Rule-Based)") /\
         (~ num_lt (rm_roiYears (rw_metrics r)) (Fin (lit 5)) ->
          suggestion rec = "Stay on Grid (Rule-Based)"))
      (rooms result) (roomRecommendations recommendation) /\
    totalSavings recommendation = 0 /\
    breakevenPeriod recommendation = 0 /\
    capacityNeeded recommendation = 0.
Proof.
  cbv zeta.
  apply (fallback_on_advisory_failure
           (fun _ : jsval => @None json)
           (fun (_ : number) (_ : nat) => "4.3")
           (fun (_ : list PayloadEntry) (_ : BuildingMetrics) =>
              Responded
                (Some (JObj [("error", JObj [("code", JNum (Fin (lit 429)))])])))).
  apply (text_missing _ _ None); reflexivity.
Defined.

(** The fallback for that building: the one room pays back in about 4.3
    years and is suggested for conversion. *)
Example fallback_example :
  let result :=
    calculateBuildingTotals
      [mkRoom "r1" "Lab A" "Lab"]
      [mkDevice "d1" "r1" "Heater" (lit 2) (lit 1500) (lit 6)]
      initialSolarSettings in
  map suggestion
    (roomRecommendations (fallback (fun _ _ => "4.3") (rooms result)))
  = ["Convert to Solar (Rule-Based)"].
Proof. vm_compute. reflexivity. Qed.

(** The other path: a candidate text that parses is returned as parsed,
    whatever its shape. *)
Example service_answer_returned :
  let JSON_parse := fun v : jsval =>
    match v with
    | Some (JStr "{}") => Some (JObj [])
    | _ => None
    end in
  let answer :=
    JObj [("candidates",
           JArr [JObj [("content",
                        JObj [("parts", JArr [JObj [("text", JStr "{}")]])])]])] in
  generateLLMRecommendation JSON_parse (fun _ _ => "")
    (fun _ _ => Responded (Some answer)) []
    (building (calculateBuildingTotals [] [] initialSolarSettings))
  = Normal (FromService (JObj [])).
Proof. reflexivity. Qed.

(** The device of the specification's example: two 1500 W units, six hours a
    day, at 9 per kWh. *)
Example calculateDeviceMetrics_example :
  let m := calculateDeviceMetrics
             (mkDevice "d1" "r1" "Heater" (lit 2) (lit 1500) (lit 6)) (lit 9) in
  energyKWhDay m = lit 18 /\ costDay m = lit 162 /\
  costMonth m = lit 4930.875 /\ costYear m = lit 59170.5.
Proof. cbv zeta. repeat split; apply Qc_is_canon; reflexivity. Qed.

(** Three years at 5% inflation on a yearly grid cost of 1000:
    1000 + 1050 + 1102.5. *)
Example savingsLoop_example :
  fst (savingsLoop (loopTrips (lit 3)) (lit 0.05) 0 (lit 1000)) = lit 3152.5.
Proof. apply Qc_is_canon. reflexivity. Qed.

(** A fractional lifetime runs the loop once more than its integer part. *)
Example loopTrips_examples :
  map loopTrips [lit 25; lit 2.5; 0; lit (-3)] = [25; 3; 0; 0]%nat.
Proof. reflexivity. Qed.

(** ** Room and building aggregation *)

Lemma deviceOf_output (rate : Qc) (d : Device) :
  deviceOf (deviceOutput rate d) = d.
Proof. now destruct d. Qed.

Lemma deviceEnergy_any_rate (d : Device) (rate : Qc) :
  energyKWhDay (calculateDeviceMetrics d rate) = deviceEnergy d.
Proof. reflexivity. Qed.

Lemma device_costYear (d : Device) (rate : Qc) :
  costYear (calculateDeviceMetrics d rate) = deviceEnergy d * rate * lit 365.25.
Proof. reflexivity. Qed.

Lemma sumQc_scale_r {A : Type} (f : A -> Qc) (k : Qc) (l : list A) :
  sumQc (map (fun a => f a * k) l) = sumQc (map f l) * k.
Proof.
  induction l as [|a l IH]; cbn [map sumQc fold_right]; [ring|].
  fold (sumQc (map (fun a => f a * k) l)). fold (sumQc (map f l)).
  rewrite IH. ring.
Qed.

(** The room's two accumulators and its device list, from the room's devices. *)
Lemma roomOutput_devices (devices : list Device) (s : SolarSettings) (room : Room) :
  let r := roomOutput devices s room in
  let own := roomDevicesOf devices room in
  rw_devices r = map (deviceOutput (electricityRate s)) own /\
  rm_energyKWhDay (rw_metrics r) = sumQc (map deviceEnergy own) /\
  rm_costYearGrid (rw_metrics r) =
    sumQc (map deviceEnergy own) * electricityRate s * lit 365.25.
Proof.
  unfold roomOutput, roomStep. rewrite mapAccum_deviceStep, !Qcplus_0_l.
  cbn [snd rw_devices rw_metrics rm_energyKWhDay rm_costYearGrid].
  repeat split.
  rewrite <- !sumQc_scale_r. reflexivity.
Qed.

(** X1.  Every returned room lists its own devices (those carrying the
    room's id) in inventory order, each unchanged and with its own metrics;
    the room's energy is the sum of their energies and the room's yearly
    cost the sum of their yearly costs. *)
Theorem room_aggregates_its_devices (rs : list Room) (devices : list Device)
    (s : SolarSettings) :
  Forall2
    (fun room r =>
       let own := roomDevicesOf devices room in
       map deviceOf (rw_devices r) = own /\
       map dm_metrics (rw_devices r) =
         map (fun d => calculateDeviceMetrics d (electricityRate s)) own /\
       rm_energyKWhDay (rw_metrics r) =
         sumQc (map (fun d => energyKWhDay (calculateDeviceMetrics d (electricityRate s))) own) /\
       rm_costYearGrid (rw_metrics r) =
         sumQc (map (fun d => costYear (calculateDeviceMetrics d (electricityRate s))) own))
    rs (rooms (calculateBuildingTotals rs devices s)).
Proof.
  rewrite calculateBuildingTotals_closed. cbn [rooms].
  apply Forall2_map_output. intro room. cbv zeta.
  destruct (roomOutput_devices devices s room) as (Hd & He & Hc).
  rewrite Hd, He, Hc, !map_map. split; [|split; [|split]].
  - rewrite <- (map_id (roomDevicesOf devices room)) at 2.
    apply map_ext. intro d. apply deviceOf_output.
  - reflexivity.
  - reflexivity.
  - rewrite <- !sumQc_scale_r. reflexivity.
Qed.

(** X2.  The building's daily energy and yearly grid cost are the sums of
    the returned rooms' energy and cost, and the building's [yearlySavings]
    is its yearly grid cost. *)
Theorem building_sums_its_rooms (rs : list Room) (devices : list Device)
    (s : SolarSettings) :
  let result := calculateBuildingTotals rs devices s in
  totalEnergyKWhDay (building result) =
    sumQc (map (fun r => rm_energyKWhDay (rw_metrics r)) (rooms result)) /\
  totalCostYearGrid (building result) =
    sumQc (map (fun r => rm_costYearGrid (rw_metrics r)) (rooms result)) /\
  yearlySavings (building result) = totalCostYearGrid (building result).
Proof.
  rewrite calculateBuildingTotals_closed. cbn. repeat split.
Qed.

Lemma room_cost_from_energy (devices : list Device) (s : SolarSettings)
    (room : Room) :
  rm_costYearGrid (rw_metrics (roomOutput devices s room)) =
  rm_energyKWhDay (rw_metrics (roomOutput devices s room))
  * electricityRate s * lit 365.25.
Proof.
  destruct (roomOutput_devices devices s room) as (_ & -> & ->). reflexivity.
Qed.

Lemma building_cost_from_energy (devices : list Device) (s : SolarSettings)
    (rs : list Room) :
  sumQc (map (fun r => rm_costYearGrid (rw_metrics r)) (map (roomOutput devices s) rs)) =
  sumQc (map (fun r => rm_energyKWhDay (rw_metrics r)) (map (roomOutput devices s) rs))
  * electricityRate s * lit 365.25.
Proof.
  rewrite !map_map.
  rewrite (map_ext _ _ (room_cost_from_energy devices s)).
  rewrite <- !sumQc_scale_r. reflexivity.
Qed.

(** X3.  Yearly grid cost is daily energy times the tariff times 365.25, for
    every returned room and for the building. *)
Theorem cost_is_energy_times_tariff (rs : list Room) (devices : list Device)
    (s : SolarSettings) :
  let result := calculateBuildingTotals rs devices s in
  Forall
    (fun r =>
       rm_costYearGrid (rw_metrics r) =
       rm_energyKWhDay (rw_metrics r) * electricityRate s * lit 365.25)
    (rooms result) /\
  totalCostYearGrid (building result) =
  totalEnergyKWhDay (building result) * electricityRate s * lit 365.25.
Proof.
  rewrite calculateBuildingTotals_closed.
  cbn [rooms building totalCostYearGrid totalEnergyKWhDay]. split.
  - apply Forall_forall. intros r Hr. apply in_map_iff in Hr.
    destruct Hr as (room & <- & _). apply room_cost_from_energy.
  - apply building_cost_from_energy.
Qed.

(** ** Bounds kept by the returned metrics *)

Lemma Math_min_bound (a : number) (c : Qc) :
  a <> NaN -> num_le (Math_min a (Fin c)) (Fin c).
Proof.
  intro Hn. destruct a as [q| | |]; cbn.
  - destruct (c <? q) eqn:E.
    + right. split; [reflexivity | discriminate].
    + destruct (Qc_dec q c) as [[Hlt | Hgt] | ->].
      * left. now constructor.
      * apply Qc_ltb_true in Hgt. congruence.
      * right. split; [reflexivity | discriminate].
  - right. split; [reflexivity | discriminate].
  - left. constructor.
  - now elim Hn.
Qed.

Lemma floor_at_zero (x : Qc) : 0 <= (if x >? 0 then x else 0).
Proof.
  destruct (x >? 0) eqn:E.
  - apply Qclt_le_weak. now apply Qc_gtb_true.
  - apply Qcle_refl.
Qed.

(** X4.  Whatever the inventory and the settings (negative numbers
    included), every returned room has [roiYears] at most 999 and a
    [requiredCapacityKW] that is not negative, and the building's
    [totalROIYears] is at most 999. *)
Theorem returned_metrics_bounds (rs : list Room) (devices : list Device)
    (s : SolarSettings) :
  let result := calculateBuildingTotals rs devices s in
  Forall
    (fun r =>
       num_le (rm_roiYears (rw_metrics r)) (Fin (lit 999)) /\
       0 <= rm_requiredCapacityKW (rw_metrics r))
    (rooms result) /\
  num_le (totalROIYears (building result)) (Fin (lit 999)).
Proof.
  rewrite calculateBuildingTotals_closed. cbn [rooms building totalROIYears].
  split.
  - apply Forall_forall. intros r Hr. apply in_map_iff in Hr.
    destruct Hr as (room & <- & _).
    destruct (roomOutput_metrics devices s room) as (-> & _ & _ & ->).
    split; [apply Math_min_bound, roiFor_not_NaN | apply floor_at_zero].
  - apply Math_min_bound, roiFor_not_NaN.
Qed.

(** ** The payback period does not depend on the consumption *)


Lemma Qc_pos_nonzero (x : Qc) : 0 < x -> x <> 0.
Proof. intros H ->. exact (Qc_lt_irrefl 0 H). Qed.






(** Two rooms with different devices under the default settings: the same
    [roiYears] in both, [28000/6574.5 = 56000/13149]. *)
Example rooms_share_one_roi_example :
  map (fun r => rm_roiYears (rw_metrics r))
    (rooms
       (calculateBuildingTotals
          [mkRoom "r1" "Lab A" "Lab"; mkRoom "r2" "Office" "Office"]
          [mkDevice "d1" "r1" "Heater" (lit 2) (lit 1500) (lit 6);
           mkDevice "d2" "r2" "Lamp" (lit 10) (lit 40) (lit 9)]
          initialSolarSettings))
  = [Fin (lit (56000 # 13149)); Fin (lit (56000 # 13149))].
Proof. by_evaluation. Qed.

(** ** The order of the inventory, and which devices count *)

Lemma sumQc_Permutation (l l' : list Qc) :
  Permutation l l' -> sumQc l = sumQc l'.
Proof.
  unfold sumQc.
  induction 1 as [|x l l' _ IH|x y l|l l' l'' _ IH1 _ IH2];
    cbn [fold_right].
  - reflexivity.
  - now rewrite IH.
  - ring.
  - congruence.
Qed.

Lemma filter_Permutation {A : Type} (p : A -> bool) (l l' : list A) :
  Permutation l l' -> Permutation (filter p l) (filter p l').
Proof.
  induction 1 as [|x l l' _ IH|x y l|l l' l'' _ IH1 _ IH2]; cbn [filter].
  - constructor.
  - destruct (p x); [now constructor | assumption].
  - destruct (p x), (p y); try reflexivity. constructor.
  - eapply perm_trans; eassumption.
Qed.

Lemma roomOutput_metrics_Permutation (ds ds' : list Device) (s : SolarSettings)
    (room : Room) :
  Permutation ds ds' ->
  rw_metrics (roomOutput ds s room) = rw_metrics (roomOutput ds' s room).
Proof.
  intro Hp.
  assert (Hown : Permutation (roomDevicesOf ds room) (roomDevicesOf ds' room))
    by now apply filter_Permutation.
  unfold roomOutput, roomStep. rewrite !mapAccum_deviceStep.
  cbn [snd rw_metrics].
  rewrite (sumQc_Permutation _ _
             (Permutation_map
                (fun d => energyKWhDay (calculateDeviceMetrics d (electricityRate s)))
                Hown)).
  rewrite (sumQc_Permutation _ _
             (Permutation_map
                (fun d => costYear (calculateDeviceMetrics d (electricityRate s)))
                Hown)).
  reflexivity.
Qed.

(** X7.  Reordering the inventory changes no metric: the building metrics
    and the metrics of every room are the same for any two orders of the
    same devices. *)
Theorem device_order_is_irrelevant (rs : list Room) (ds ds' : list Device)
    (s : SolarSettings) :
  Permutation ds ds' ->
  building (calculateBuildingTotals rs ds s) =
  building (calculateBuildingTotals rs ds' s) /\
  map rw_metrics (rooms (calculateBuildingTotals rs ds s)) =
  map rw_metrics (rooms (calculateBuildingTotals rs ds' s)).
Proof.
  intro Hp. rewrite !calculateBuildingTotals_closed. cbn [building rooms].
  rewrite !map_map.
  rewrite (map_ext (fun r => rm_energyKWhDay (rw_metrics (roomOutput ds s r)))
             (fun r => rm_energyKWhDay (rw_metrics (roomOutput ds' s r))))
    by (intro r; now rewrite (roomOutput_metrics_Permutation ds ds' s r Hp)).
  rewrite (map_ext (fun r => rm_costYearGrid (rw_metrics (roomOutput ds s r)))
             (fun r => rm_costYearGrid (rw_metrics (roomOutput ds' s r))))
    by (intro r; now rewrite (roomOutput_metrics_Permutation ds ds' s r Hp)).
  split; [reflexivity|].
  apply map_ext. intro r. now apply roomOutput_metrics_Permutation.
Qed.

(** X7 (witness): two devices of one room, swapped. *)
Lemma device_order_is_irrelevant_witness :
  let rs := [mkRoom "r1" "Lab A" "Lab"] in
  let d1 := mkDevice "d1" "r1" "Heater" (lit 2) (lit 1500) (lit 6) in
  let d2 := mkDevice "d2" "r1" "Fan" (lit 4) (lit 75) (lit 8) in
  building (calculateBuildingTotals rs [d1; d2] initialSolarSettings) =
  building (calculateBuildingTotals rs [d2; d1] initialSolarSettings) /\
  map rw_metrics (rooms (calculateBuildingTotals rs [d1; d2] initialSolarSettings)) =
  map rw_metrics (rooms (calculateBuildingTotals rs [d2; d1] initialSolarSettings)).
Proof.
  cbv zeta.
  apply (device_order_is_irrelevant
           [mkRoom "r1" "Lab A" "Lab"]
           [mkDevice "d1" "r1" "Heater" (lit 2) (lit 1500) (lit 6);
            mkDevice "d2" "r1" "Fan" (lit 4) (lit 75) (lit 8)]
           [mkDevice "d2" "r1" "Fan" (lit 4) (lit 75) (lit 8);
            mkDevice "d1" "r1" "Heater" (lit 2) (lit 1500) (lit 6)]
           initialSolarSettings).
  apply perm_swap.
Defined.

Lemma Forall2_map_both {A B C : Type} (P : B -> C -> Prop) (f : A -> B)
    (g : A -> C) (l : list A) :
  (forall a, P (f a) (g a)) -> Forall2 P (map f l) (map g l).
Proof.
  intro H. induction l as [|a l IH]; cbn [map]; constructor; auto.
Qed.

Lemma roomOutput_id (devices : list Device) (s : SolarSettings) (room : Room) :
  rw_id (roomOutput devices s room) = r_id room.
Proof.
  pose proof (roomOutput_room devices s room) as H.
  destruct room. now injection H.
Qed.

(** X8.  Adding a device to the inventory, or removing one, at any position,
    leaves every returned room whose id is not the device's [roomId] exactly
    as it was. *)
Theorem other_rooms_unaffected_by_device (rs : list Room)
    (before after : list Device) (d : Device) (s : SolarSettings) :
  Forall2
    (fun r r' => rw_id r <> d_roomId d -> r = r')
    (rooms (calculateBuildingTotals rs (before ++ after) s))
    (rooms (calculateBuildingTotals rs (before ++ d :: after) s)).
Proof.
  rewrite !calculateBuildingTotals_closed. cbn [rooms].
  apply Forall2_map_both. intros room. rewrite roomOutput_id. intro Hne.
  unfold roomOutput, roomStep, roomDevicesOf.
  rewrite !filter_app. cbn [filter].
  destruct (String.eqb (d_roomId d) (r_id room)) eqn:E; [|reflexivity].
  apply String.eqb_eq in E. now elim Hne.
Qed.

Lemma sumQc_filter {A : Type} (p : A -> bool) (f : A -> Qc) (l : list A) :
  sumQc (map f (filter p l)) = sumQc (map (fun a => if p a then f a else 0) l).
Proof.
  unfold sumQc. induction l as [|a l IH]; cbn [filter map fold_right].
  - reflexivity.
  - destruct (p a); cbn [map fold_right]; rewrite IH; ring.
Qed.

Lemma sumQc_plus {A : Type} (f g : A -> Qc) (l : list A) :
  sumQc (map (fun a => f a + g a) l) = sumQc (map f l) + sumQc (map g l).
Proof.
  unfold sumQc. induction l as [|a l IH]; cbn [map fold_right].
  - ring.
  - rewrite IH. ring.
Qed.

Lemma roomCount_cons (room : Room) (rs : list Room) (d : Device) :
  roomCount (room :: rs) d =
  if String.eqb (d_roomId d) (r_id room)
  then S (roomCount rs d) else roomCount rs d.
Proof.
  unfold roomCount. cbn [filter].
  now destruct (String.eqb (d_roomId d) (r_id room)).
Qed.

(** Summing room by room counts each device once per room that carries
    its [roomId]. *)
Lemma energy_room_by_room (rs : list Room) (ds : list Device) :
  sumQc (map (fun room => sumQc (map deviceEnergy (roomDevicesOf ds room))) rs) =
  sumQc (map (fun d => ofZ (Z.of_nat (roomCount rs d)) * deviceEnergy d) ds).
Proof.
  induction rs as [|room rs IH].
  - cbn [map]. unfold sumQc at 1. cbn [fold_right].
    induction ds as [|d ds IHd]; [reflexivity|].
    cbn [map sumQc fold_right]. fold (sumQc (map (fun d => ofZ (Z.of_nat (roomCount [] d)) * deviceEnergy d) ds)).
    rewrite <- IHd. change (ofZ (Z.of_nat (roomCount [] d))) with (Q2Qc 0). ring.
  - cbn [map sumQc fold_right].
    fold (sumQc (map (fun room => sumQc (map deviceEnergy (roomDevicesOf ds room))) rs)).
    rewrite IH. unfold roomDevicesOf. rewrite sumQc_filter, <- sumQc_plus.
    f_equal. apply map_ext. intro d. rewrite roomCount_cons.
    destruct (String.eqb (d_roomId d) (r_id room)).
    + rewrite ofZ_succ. ring.
    + ring.
Qed.

Lemma building_energy_closed (rs : list Room) (ds : list Device)
    (s : SolarSettings) :
  totalEnergyKWhDay (building (calculateBuildingTotals rs ds s)) =
  sumQc (map (fun room => sumQc (map deviceEnergy (roomDevicesOf ds room))) rs).
Proof.
  rewrite calculateBuildingTotals_closed. cbn [building totalEnergyKWhDay].
  rewrite map_map. f_equal. apply map_ext. intro room.
  now destruct (roomOutput_devices ds s room) as (_ & -> & _).
Qed.

(** X9.  The building's daily energy counts every device once for each room
    of the list that carries the device's [roomId]: not at all for an orphan,
    and several times when rooms share an id. *)
Theorem building_energy_counts_devices (rs : list Room) (ds : list Device)
    (s : SolarSettings) :
  totalEnergyKWhDay (building (calculateBuildingTotals rs ds s)) =
  sumQc
    (map (fun d =>
            ofZ (Z.of_nat (roomCount rs d))
            * energyKWhDay (calculateDeviceMetrics d (electricityRate s)))
       ds).
Proof.
  rewrite building_energy_closed. apply energy_room_by_room.
Qed.

Lemma roomCount_absent (rs : list Room) (d : Device) :
  ~ In (d_roomId d) (map r_id rs) -> roomCount rs d = 0%nat.
Proof.
  induction rs as [|room rs IH]; intro Hn; [reflexivity|].
  rewrite roomCount_cons.
  destruct (String.eqb (d_roomId d) (r_id room)) eqn:E.
  - apply String.eqb_eq in E. elim Hn. left. now symmetry.
  - apply IH. intro Hin. apply Hn. now right.
Qed.

Lemma roomCount_unique (rs : list Room) (d : Device) :
  NoDup (map r_id rs) -> hasRoom rs d = true -> roomCount rs d = 1%nat.
Proof.
  induction rs as [|room rs IH]; intros Hnd Hhas; [discriminate|].
  cbn [map] in Hnd. apply NoDup_cons_iff in Hnd. destruct Hnd as [Hnotin Hnd].
  rewrite roomCount_cons. unfold hasRoom in Hhas. cbn [existsb] in Hhas.
  destruct (String.eqb (d_roomId d) (r_id room)) eqn:E.
  - apply String.eqb_eq in E. rewrite roomCount_absent; [reflexivity|].
    now rewrite E.
  - apply IH; assumption.
Qed.

(** X10.  When the rooms have pairwise different ids and every device
    carries the id of a room, the building's daily energy is the sum of the
    energies of all devices of the inventory. *)
Theorem building_energy_of_consistent_inventory (rs : list Room)
    (ds : list Device) (s : SolarSettings) :
  NoDup (map r_id rs) ->
  (forall d, In d ds -> hasRoom rs d = true) ->
  totalEnergyKWhDay (building (calculateBuildingTotals rs ds s)) =
  sumQc (map (fun d => energyKWhDay (calculateDeviceMetrics d (electricityRate s))) ds).
Proof.
  intros Hnd Hall. rewrite building_energy_closed, energy_room_by_room.
  f_equal. apply map_ext_in. intros d Hd.
  rewrite (roomCount_unique rs d Hnd (Hall d Hd)).
  change (ofZ (Z.of_nat 1)) with 1. rewrite Qcmult_1_l. reflexivity.
Qed.

(** X10 (witness): two rooms, three devices. *)
Lemma building_energy_of_consistent_inventory_witness :
  let rs := [mkRoom "r1" "Lab A" "Lab"; mkRoom "r2" "Office" "Office"] in
  let ds := [mkDevice "d1" "r1" "Heater" (lit 2) (lit 1500) (lit 6);
             mkDevice "d2" "r2" "Lamp" (lit 10) (lit 40) (lit 9);
             mkDevice "d3" "r1" "Fan" (lit 4) (lit 75) (lit 8)] in
  totalEnergyKWhDay (building (calculateBuildingTotals rs ds initialSolarSettings)) =
  sumQc (map (fun d => energyKWhDay
                         (calculateDeviceMetrics d (electricityRate initialSolarSettings)))
           ds).
Proof.
  cbv zeta.
  apply (building_energy_of_consistent_inventory
           [mkRoom "r1" "Lab A" "Lab"; mkRoom "r2" "Office" "Office"]).
  - cbn [map r_id]. repeat constructor; cbn; intuition discriminate.
  - intros d [<- | [<- | [<- | []]]]; reflexivity.
Defined.

(** Two rooms sharing an id: their one device is counted twice. *)
Example shared_room_id_counts_twice :
  totalEnergyKWhDay
    (building
       (calculateBuildingTotals
          [mkRoom "r1" "Lab A" "Lab"; mkRoom "r1" "Lab A again" "Lab"]
          [mkDevice "d1" "r1" "Heater" (lit 2) (lit 1500) (lit 6)]
          initialSolarSettings))
  = lit 36.
Proof. by_evaluation. Qed.

(** ** Edge cases of the inventory and of the lifetime *)

Lemma loopTrips_nonpositive (lifetimeYears : Qc) :
  lifetimeYears <= 0 -> loopTrips lifetimeYears = 0%nat.
Proof.
  intro H. unfold loopTrips.
  pose proof (Qceiling_resp_le lifetimeYears 0 H) as Hc.
  change (Qceiling 0) with 0%Z in Hc. lia.
Qed.

(** X11.  With a lifetime of zero or less the projection loop does not run:
    [longTermSavings] is the installation cost, negated. *)
Theorem no_lifetime_no_savings (rs : list Room) (devices : list Device)
    (s : SolarSettings) :
  lifetimeYears s <= 0 ->
  let b := building (calculateBuildingTotals rs devices s) in
  longTermSavings b = - totalInstallationCost b.
Proof.
  intro H. rewrite calculateBuildingTotals_closed.
  cbn [building longTermSavings totalInstallationCost].
  rewrite (loopTrips_nonpositive _ H). cbn [savingsLoop fst]. ring.
Qed.

(** X11 (witness): a lifetime of -3 years. *)
Lemma no_lifetime_no_savings_witness :
  let s := {| electricityRate := lit 9; solarCostPerKW := lit 70000;
              efficiencyFactor := 1; sunlightHours := lit 5;
              lifetimeYears := lit (-3); annualInflation := lit 0.05 |} in
  let b := building
             (calculateBuildingTotals
                [mkRoom "r1" "Lab A" "Lab"]
                [mkDevice "d1" "r1" "Heater" (lit 2) (lit 1500) (lit 6)] s) in
  longTermSavings b = - totalInstallationCost b.
Proof.
  cbv zeta.
  apply (no_lifetime_no_savings
           [mkRoom "r1" "Lab A" "Lab"]
           [mkDevice "d1" "r1" "Heater" (lit 2) (lit 1500) (lit 6)]
           {| electricityRate := lit 9; solarCostPerKW := lit 70000;
              efficiencyFactor := 1; sunlightHours := lit 5;
              lifetimeYears := lit (-3); annualInflation := lit 0.05 |}).
  vm_compute. discriminate.
Defined.

Lemma roomDevicesOf_none (rs : list Room) (ds : list Device) (room : Room) :
  (forall d, In d ds -> hasRoom rs d = false) ->
  In room rs -> roomDevicesOf ds room = [].
Proof.
  intros Hall Hin. unfold roomDevicesOf.
  induction ds as [|d ds IH]; [reflexivity|]. cbn [filter].
  destruct (String.eqb (d_roomId d) (r_id room)) eqn:E.
  - assert (Ht : hasRoom rs d = true).
    { apply existsb_exists. exists room. now split. }
    rewrite (Hall d (or_introl eq_refl)) in Ht. discriminate.
  - apply IH. intros d' Hd'. apply Hall. now right.
Qed.

Lemma sumQc_all_zero {A : Type} (f : A -> Qc) (l : list A) :
  (forall a, In a l -> f a = 0) -> sumQc (map f l) = 0.
Proof.
  unfold sumQc. induction l as [|a l IH]; intro H; cbn [map fold_right].
  - reflexivity.
  - rewrite (H a (or_introl eq_refl)), IH; [ring|].
    intros a' Ha'. apply H. now right.
Qed.

Lemma compoundedSum_of_zero (inflation : Qc) (n : nat) :
  compoundedSum 0 inflation n = 0.
Proof.
  unfold compoundedSum. apply sumQc_all_zero. intros i _. ring.
Qed.

(** X12.  When no device of the inventory carries the id of a room (no
    devices at all, or orphans only), every returned room has no devices,
    zero energy, zero cost and a [roiYears] of 999, and the building has zero
    energy, cost, capacity, installation cost and long-term savings, a
    [totalROIYears] of 999 and a [paybackYears] of [Infinity]. *)
Theorem nothing_housed_nothing_counted (rs : list Room) (ds : list Device)
    (s : SolarSettings) :
  (forall d, In d ds -> hasRoom rs d = false) ->
  let result := calculateBuildingTotals rs ds s in
  Forall
    (fun r =>
       rw_devices r = [] /\
       rw_metrics r =
       {| rm_energyKWhDay := 0; rm_costYearGrid := 0;
          rm_requiredCapacityKW := 0; rm_installationCost := 0;
          rm_roiYears := Fin (lit 999); rm_yearlySavings := 0 |})
    (rooms result) /\
  building result =
  {| totalEnergyKWhDay := 0; totalCostYearGrid := 0;
     totalRequiredCapacityKW := 0; totalInstallationCost := 0;
     totalROIYears := Fin (lit 999); longTermSavings := 0;
     paybackYears := Infinity; yearlySavings := 0 |}.
Proof.
  intro Hall.
  assert (Hroom : forall room, In room rs ->
            roomOutput ds s room =
            {| rw_id := r_id room; rw_name := r_name room;
               rw_purpose := r_purpose room; rw_devices := [];
               rw_metrics :=
                 {| rm_energyKWhDay := 0; rm_costYearGrid := 0;
                    rm_requiredCapacityKW := 0; rm_installationCost := 0;
                    rm_roiYears := Fin (lit 999); rm_yearlySavings := 0 |} |}).
  { intros room Hin. unfold roomOutput, roomStep.
    rewrite (roomDevicesOf_none rs ds room Hall Hin).
    cbn [mapAccum snd]. rewrite capacityFor_zero, Qcmult_0_l.
    reflexivity. }
  cbv zeta. rewrite calculateBuildingTotals_closed. cbn [rooms building].
  split.
  - apply Forall_forall. intros r Hr. apply in_map_iff in Hr.
    destruct Hr as (room & <- & Hin). rewrite (Hroom room Hin). now split.
  - rewrite !map_map.
    rewrite (sumQc_all_zero (fun r => rm_energyKWhDay (rw_metrics (roomOutput ds s r))))
      by (intros room Hin; now rewrite (Hroom room Hin)).
    rewrite (sumQc_all_zero (fun r => rm_costYearGrid (rw_metrics (roomOutput ds s r))))
      by (intros room Hin; now rewrite (Hroom room Hin)).
    rewrite capacityFor_zero, Qcmult_0_l, savingsLoop_sum, compoundedSum_of_zero.
    replace (0 + 0 - 0) with 0 by ring. reflexivity.
Qed.

(** X12 (witness): one room and one orphan device. *)
Lemma nothing_housed_nothing_counted_witness :
  let result :=
    calculateBuildingTotals
      [mkRoom "r1" "Lab A" "Lab"]
      [mkDevice "d2" "gone" "Fan" (lit 4) (lit 75) (lit 8)]
      initialSolarSettings in
  Forall
    (fun r =>
       rw_devices r = [] /\
       rw_metrics r =
       {| rm_energyKWhDay := 0; rm_costYearGrid := 0;
          rm_requiredCapacityKW := 0; rm_installationCost := 0;
          rm_roiYears := Fin (lit 999); rm_yearlySavings := 0 |})
    (rooms result) /\
  building result =
  {| totalEnergyKWhDay := 0; totalCostYearGrid := 0;
     totalRequiredCapacityKW := 0; totalInstallationCost := 0;
     totalROIYears := Fin (lit 999); longTermSavings := 0;
     paybackYears := Infinity; yearlySavings := 0 |}.
Proof.
  cbv zeta.
  apply (nothing_housed_nothing_counted
           [mkRoom "r1" "Lab A" "Lab"]
           [mkDevice "d2" "gone" "Fan" (lit 4) (lit 75) (lit 8)]
           initialSolarSettings).
  intros d [<- | []]. reflexivity.
Defined.

(** ** Non-negative inventories *)

Lemma Qc_mult_nonneg (a b : Qc) : 0 <= a -> 0 <= b -> 0 <= a * b.
Proof.
  intros Ha Hb. rewrite <- (Qcmult_0_l b). now apply Qcmult_le_compat_r.
Qed.

Lemma Qc_plus_nonneg (a b : Qc) : 0 <= a -> 0 <= b -> 0 <= a + b.
Proof.
  intros Ha Hb. rewrite <- (Qcplus_0_l 0). now apply Qcplus_le_compat.
Qed.

Lemma Qc_div_nonneg (a b : Qc) : 0 <= a -> 0 < b -> 0 <= a / b.
Proof.
  intros Ha Hb. apply (Qcmult_lt_0_le_reg_r _ _ b Hb).
  rewrite Qcmult_0_l.
  replace (a / b * b) with a by (field; now apply Qc_pos_nonzero).
  exact Ha.
Qed.

Lemma lit_nonneg_365 : 0 <= lit 365.25.
Proof. vm_compute. discriminate. Qed.

Lemma lit_pos_1000 : 0 < lit 1000.
Proof. reflexivity. Qed.

Lemma sumQc_nonneg {A : Type} (f : A -> Qc) (l : list A) :
  (forall a, In a l -> 0 <= f a) -> 0 <= sumQc (map f l).
Proof.
  unfold sumQc. induction l as [|a l IH]; intro H; cbn [map fold_right].
  - apply Qcle_refl.
  - apply Qc_plus_nonneg; [apply H; now left|].
    apply IH. intros a' Ha'. apply H. now right.
Qed.

Lemma deviceEnergy_nonneg (d : Device) :
  nonNegativeDevice d -> 0 <= deviceEnergy d.
Proof.
  intros (Hq & Hp & Hu). unfold deviceEnergy, calculateDeviceMetrics.
  cbn [energyKWhDay].
  apply Qc_mult_nonneg; [apply Qc_mult_nonneg|]; try assumption.
  apply Qc_div_nonneg; [assumption | apply lit_pos_1000].
Qed.

Lemma room_energy_nonneg (ds : list Device) (s : SolarSettings) (room : Room) :
  Forall nonNegativeDevice ds ->
  0 <= rm_energyKWhDay (rw_metrics (roomOutput ds s room)).
Proof.
  intro Hall. destruct (roomOutput_devices ds s room) as (_ & -> & _).
  apply sumQc_nonneg. intros d Hd. apply deviceEnergy_nonneg.
  unfold roomDevicesOf in Hd. apply filter_In in Hd.
  rewrite Forall_forall in Hall. now apply Hall.
Qed.

Lemma capacityFor_nonneg (energy gen : Qc) :
  0 <= energy -> 0 <= capacityFor (energy * lit 365.25) gen.
Proof.
  intro He. unfold capacityFor. destruct (gen >? 0) eqn:E.
  - apply Qc_div_nonneg; [|now apply Qc_gtb_true].
    apply Qc_mult_nonneg; [assumption | apply lit_nonneg_365].
  - apply Qcle_refl.
Qed.

Lemma floor_identity (x : Qc) : 0 <= x -> (if x >? 0 then x else 0) = x.
Proof.
  intro H. destruct (x >? 0) eqn:E; [reflexivity|].
  apply Qcle_lt_or_eq in H. destruct H as [Hlt | Heq]; [|assumption].
  apply Qc_gtb_true in Hlt. congruence.
Qed.

(** X13.  When no device has a negative quantity, power or usage and the
    tariff is not negative, every returned room has non-negative energy and
    cost and an [installationCost] equal to its returned
    [requiredCapacityKW] times [solarCostPerKW]; the building's energy, cost
    and required capacity are not negative either. *)
Theorem nonnegative_inventory_nonnegative_metrics (rs : list Room)
    (ds : list Device) (s : SolarSettings) :
  Forall nonNegativeDevice ds ->
  0 <= electricityRate s ->
  let result := calculateBuildingTotals rs ds s in
  Forall
    (fun r =>
       let m := rw_metrics r in
       0 <= rm_energyKWhDay m /\ 0 <= rm_costYearGrid m /\
       rm_installationCost m = rm_requiredCapacityKW m * solarCostPerKW s)
    (rooms result) /\
  0 <= totalEnergyKWhDay (building result) /\
  0 <= totalCostYearGrid (building result) /\
  0 <= totalRequiredCapacityKW (building result).
Proof.
  intros Hall Hrate. cbv zeta.
  assert (Hte : 0 <= totalEnergyKWhDay (building (calculateBuildingTotals rs ds s))).
  { rewrite calculateBuildingTotals_closed. cbn [building totalEnergyKWhDay].
    rewrite map_map. apply sumQc_nonneg. intros room _.
    now apply room_energy_nonneg. }
  split; [|split; [exact Hte|split]].
  - rewrite calculateBuildingTotals_closed. cbn [rooms].
    apply Forall_forall. intros r Hr. apply in_map_iff in Hr.
    destruct Hr as (room & <- & _).
    pose proof (room_energy_nonneg ds s room Hall) as He.
    destruct (roomOutput_metrics ds s room) as (Hc & Hi & _).
    split; [exact He|]. split.
    + rewrite room_cost_from_energy.
      apply Qc_mult_nonneg; [apply Qc_mult_nonneg|]; try assumption.
      apply lit_nonneg_365.
    + rewrite Hi, Hc, floor_identity; [reflexivity|].
      now apply capacityFor_nonneg.
  - revert Hte. rewrite calculateBuildingTotals_closed.
    cbn [building totalEnergyKWhDay totalCostYearGrid]. intro Hte.
    rewrite building_cost_from_energy.
    apply Qc_mult_nonneg; [apply Qc_mult_nonneg|]; try assumption.
    apply lit_nonneg_365.
  - revert Hte. rewrite calculateBuildingTotals_closed.
    cbn [building totalEnergyKWhDay totalRequiredCapacityKW]. intro Hte.
    now apply capacityFor_nonneg.
Qed.

(** X13 (witness): the one-room building under the default settings. *)
Lemma nonnegative_inventory_nonnegative_metrics_witness :
  let s := initialSolarSettings in
  let result :=
    calculateBuildingTotals
      [mkRoom "r1" "Lab A" "Lab"]
      [mkDevice "d1" "r1" "Heater" (lit 2) (lit 1500) (lit 6)] s in
  Forall
    (fun r =>
       let m := rw_metrics r in
       0 <= rm_energyKWhDay m /\ 0 <= rm_costYearGrid m /\
       rm_installationCost m = rm_requiredCapacityKW m * solarCostPerKW s)
    (rooms result) /\
  0 <= totalEnergyKWhDay (building result) /\
  0 <= totalCostYearGrid (building result) /\
  0 <= totalRequiredCapacityKW (building result).
Proof.
  cbv zeta.
  apply (nonnegative_inventory_nonnegative_metrics
           [mkRoom "r1" "Lab A" "Lab"]
           [mkDevice "d1" "r1" "Heater" (lit 2) (lit 1500) (lit 6)]
           initialSolarSettings).
  - repeat constructor; vm_compute; discriminate.
  - vm_compute. discriminate.
Defined.

(** With a negative quantity the returned capacity is floored at 0 while
    the installation cost stays negative: the two fields disagree. *)
Example negative_quantity_example :
  let r :=
    hd (mkRoomWithMetrics "" "" "" [] (mkRoomMetrics 0 0 0 0 NaN 0))
      (rooms
         (calculateBuildingTotals
            [mkRoom "r1" "Lab A" "Lab"]
            [mkDevice "d1" "r1" "Heater" (lit (-2)) (lit 1500) (lit 6)]
            initialSolarSettings)) in
  rm_requiredCapacityKW (rw_metrics r) = 0 /\
  rm_installationCost (rw_metrics r) = lit (-252000).
Proof. cbv zeta. split; by_evaluation. Qed.

(** ** Inflation and the projection *)

Lemma Qc_one_le_power (x : Qc) (k : nat) : 0 <= x -> 1 <= (1 + x) ^ k.
Proof.
  intro Hx.
  assert (H1 : 1 <= 1 + x).
  { rewrite <- (Qcplus_0_r 1) at 1. apply Qcplus_le_compat;
      [apply Qcle_refl | exact Hx]. }
  induction k as [|k IH]; cbn [Qcpower]; [apply Qcle_refl|].
  apply Qcle_trans with (1 * (1 + x) ^ k).
  - now rewrite Qcmult_1_l.
  - apply Qcmult_le_compat_r; [exact H1|].
    apply Qcle_trans with 1; [discriminate | exact IH].
Qed.

Lemma compoundedSum_from (gridCost inflation : Qc) (n a : nat) :
  0 <= gridCost -> 0 <= inflation ->
  ofZ (Z.of_nat n) * gridCost <=
  sumQc (map (fun i => gridCost * (1 + inflation) ^ i) (seq a n)).
Proof.
  intros Hg Hi. revert a. induction n as [|n IH]; intro a.
  - cbn [seq map sumQc fold_right].
    change (ofZ (Z.of_nat 0)) with (Q2Qc 0). rewrite Qcmult_0_l.
    apply Qcle_refl.
  - cbn [seq map sumQc fold_right]. rewrite ofZ_succ.
    replace ((1 + ofZ (Z.of_nat n)) * gridCost)
      with (gridCost + ofZ (Z.of_nat n) * gridCost) by ring.
    apply Qcplus_le_compat; [|apply IH].
    rewrite <- (Qcmult_1_l gridCost) at 1. rewrite (Qcmult_comm gridCost).
    apply Qcmult_le_compat_r; [now apply Qc_one_le_power | exact Hg].
Qed.

(** X14.  In exact arithmetic: for a non-negative inventory and tariff, a
    non-negative inflation and an integer lifetime [L >= 0], [longTermSavings]
    is at least the flat projection
    [lifetimeYears * totalCostYearGrid - totalInstallationCost]: inflation
    never lowers the projected savings.  (On doubles the bound can be missed
    in the last digits; the last section of the file has the case.) *)
Theorem inflation_never_lowers_savings (rs : list Room) (ds : list Device)
    (s : SolarSettings) (L : Z) :
  Forall nonNegativeDevice ds ->
  0 <= electricityRate s ->
  0 <= annualInflation s ->
  (0 <= L)%Z ->
  lifetimeYears s = ofZ L ->
  let b := building (calculateBuildingTotals rs ds s) in
  lifetimeYears s * totalCostYearGrid b - totalInstallationCost b
  <= longTermSavings b.
Proof.
  intros Hall Hrate Hinfl HL Hlife. cbv zeta.
  rewrite calculateBuildingTotals_closed.
  cbn [building totalCostYearGrid totalInstallationCost longTermSavings].
  rewrite savingsLoop_sum, Qcplus_0_l, Hlife, loopTrips_ofZ.
  apply Qcplus_le_compat; [|apply Qcle_refl].
  rewrite <- (Z2Nat.id L HL) at 1. apply compoundedSum_from; [|exact Hinfl].
  rewrite building_cost_from_energy.
  apply Qc_mult_nonneg; [apply Qc_mult_nonneg|];
    [ | exact Hrate | apply lit_nonneg_365 ].
  rewrite map_map. apply sumQc_nonneg. intros room _.
  now apply room_energy_nonneg.
Qed.

(** X14 (witness): three years at 5% for the one-room building. *)
Lemma inflation_never_lowers_savings_witness :
  let s := {| electricityRate := lit 9; solarCostPerKW := lit 70000;
              efficiencyFactor := 1; sunlightHours := lit 5;
              lifetimeYears := ofZ 3; annualInflation := lit 0.05 |} in
  let b := building
             (calculateBuildingTotals
                [mkRoom "r1" "Lab A" "Lab"]
                [mkDevice "d1" "r1" "Heater" (lit 2) (lit 1500) (lit 6)] s) in
  lifetimeYears s * totalCostYearGrid b - totalInstallationCost b
  <= longTermSavings b.
Proof.
  cbv zeta.
  apply (inflation_never_lowers_savings
           [mkRoom "r1" "Lab A" "Lab"]
           [mkDevice "d1" "r1" "Heater" (lit 2) (lit 1500) (lit 6)]
           {| electricityRate := lit 9; solarCostPerKW := lit 70000;
              efficiencyFactor := 1; sunlightHours := lit 5;
              lifetimeYears := ofZ 3; annualInflation := lit 0.05 |}
           3%Z).
  - repeat constructor; vm_compute; discriminate.
  - vm_compute. discriminate.
  - vm_compute. discriminate.
  - lia.
  - reflexivity.
Defined.

(** ** The recommendation generator on every answer of the service *)

Lemma generateLLMRecommendation_returns
    (JSON_parse : jsval -> option json) (toFixed : number -> nat -> string)
    (service : list PayloadEntry -> BuildingMetrics -> FetchOutcome)
    (roomAnalysis : list RoomWithMetrics) (buildingData : BuildingMetrics) :
  exists advice,
    generateLLMRecommendation JSON_parse toFixed service roomAnalysis buildingData
    = Normal advice.
Proof.
  unfold generateLLMRecommendation.
  destruct (tryBody JSON_parse
              (service (analysisPayload toFixed roomAnalysis) buildingData))
    as [advice | e]; cbn [tryCatch]; eauto.
Qed.

(** X15.  Whatever the service does, [generateLLMRecommendation] returns and
    does not throw.  It returns the value parsed from the candidate text,
    unchecked, exactly when the response has a truthy
    [candidates[0].content.parts[0].text] that [JSON.parse] accepts; in every
    other case it returns the rule-based fallback. *)
Theorem generateLLMRecommendation_never_throws
    (JSON_parse : jsval -> option json) (toFixed : number -> nat -> string)
    (service : list PayloadEntry -> BuildingMetrics -> FetchOutcome)
    (roomAnalysis : list RoomWithMetrics) (buildingData : BuildingMetrics) :
  let outcome := service (analysisPayload toFixed roomAnalysis) buildingData in
  let returned :=
    generateLLMRecommendation JSON_parse toFixed service roomAnalysis buildingData in
  (exists result jsonText parsed,
      outcome = Responded (Some result) /\
      candidateText result = Normal jsonText /\
      truthy jsonText = true /\
      JSON_parse jsonText = Some parsed /\
      returned = Normal (FromService parsed))
  \/
  (AdvisoryFailure JSON_parse outcome /\
   returned = Normal (RuleBased (fallback toFixed roomAnalysis))).
Proof.
  cbv zeta. unfold generateLLMRecommendation.
  destruct (service (analysisPayload toFixed roomAnalysis) buildingData)
    as [|[result|]].
  - right. split; [constructor | reflexivity].
  - unfold tryBody. cbn [bind].
    destruct (candidateText result) as [jsonText|e] eqn:Ht; cbn [bind].
    + destruct (truthy jsonText) eqn:Hf.
      * destruct (JSON_parse jsonText) as [parsed|] eqn:Hp.
        -- left. exists result, jsonText, parsed. auto.
        -- right. split; [|reflexivity]. eapply text_malformed; eassumption.
      * right. split; [|reflexivity]. eapply text_missing; eassumption.
    + right. split; [|reflexivity].
      destruct result; try discriminate Ht. constructor.
  - right. split; [constructor | reflexivity].
Qed.

(** X16.  The fallback and the payload agree room by room: both carry the
    room's name, and the fallback suggests conversion exactly for the rooms
    whose payload action is "Convert to Solar"; the hybrid tier of the
    payload has no counterpart and falls to "Stay on Grid (Rule-Based)". *)
Theorem fallback_agrees_with_payload (toFixed : number -> nat -> string)
    (roomAnalysis : list RoomWithMetrics) :
  Forall2
    (fun p rec =>
       roomName rec = p_roomName p /\
       (suggestion rec = "Convert to Solar (Rule-Based)" <->
        p_suggestedAction p = "Convert to Solar") /\
       (suggestion rec = "Stay on Grid (Rule-Based)" <->
        p_suggestedAction p = "Hybrid Model" \/
        p_suggestedAction p = "Stay on Grid"))
    (analysisPayload toFixed roomAnalysis)
    (roomRecommendations (fallback toFixed roomAnalysis)).
Proof.
  unfold analysisPayload, fallback. cbn [roomRecommendations].
  apply Forall2_map_both. intro r.
  unfold payloadEntry, fallbackRoom.
  cbn [roomName suggestion p_roomName p_suggestedAction].
  destruct (num_ltb (rm_roiYears (rw_metrics r)) (Fin (lit 5)));
    destruct (num_ltb (rm_roiYears (rw_metrics r)) (Fin (lit 10)));
    repeat split; intros; try reflexivity; try discriminate;
    try (now left); try (now right);
    match goal with
    | H : _ \/ _ |- _ => destruct H; discriminate
    end.
Qed.

Lemma roiFor_no_savings (installationCost yearlySavings : Qc) :
  ~ 0 < yearlySavings -> roiFor installationCost yearlySavings = Infinity.
Proof.
  intro H. unfold roiFor. destruct (yearlySavings >? 0) eqn:E; [|reflexivity].
  apply Qc_gtb_true in E. now elim H.
Qed.

(** X17.  The fallback run on the rooms the engine returns: a room without
    positive yearly savings (no devices, no usage) is always told to stay on
    the grid, and its payload action is "Stay on Grid". *)
Theorem fallback_on_engine_rooms (toFixed : number -> nat -> string)
    (rs : list Room) (devices : list Device) (s : SolarSettings) :
  let analysed := rooms (calculateBuildingTotals rs devices s) in
  Forall2
    (fun r rec =>
       ~ 0 < rm_yearlySavings (rw_metrics r) ->
       suggestion rec = "Stay on Grid (Rule-Based)")
    analysed (roomRecommendations (fallback toFixed analysed)) /\
  Forall2
    (fun r p =>
       ~ 0 < rm_yearlySavings (rw_metrics r) ->
       p_suggestedAction p = "Stay on Grid")
    analysed (analysisPayload toFixed analysed).
Proof.
  cbv zeta. rewrite calculateBuildingTotals_closed.
  cbn [rooms fallback roomRecommendations]. unfold analysisPayload.
  rewrite !map_map. split.
  - apply Forall2_map_both. intros room Hno.
    unfold fallbackRoom. cbn [suggestion].
    destruct (roomOutput_metrics devices s room) as (_ & _ & _ & ->).
    now rewrite (roiFor_no_savings _ _ Hno).
  - apply Forall2_map_both. intros room Hno.
    unfold payloadEntry. cbn [p_suggestedAction].
    destruct (roomOutput_metrics devices s room) as (_ & _ & _ & ->).
    now rewrite (roiFor_no_savings _ _ Hno).
Qed.

(** ** The views *)

(** X18.  [RoomDeviceManager] recomputes every room with tariff 0: the
    energy it shows for a room is the energy the engine returns for that
    room under any tariff, its device rows are the engine's devices, and its
    cost accumulator stays 0. *)
Theorem manager_shows_engine_energy (rs : list Room) (devices : list Device)
    (s : SolarSettings) :
  Forall2
    (fun room r =>
       let '((roomEnergyKWhDay, roomCostYearGrid), devicesWithMetrics) :=
         managerRoom devices room in
       roomEnergyKWhDay = rm_energyKWhDay (rw_metrics r) /\
       roomCostYearGrid = 0 /\
       map deviceOf devicesWithMetrics = map deviceOf (rw_devices r) /\
       map (fun d => energyKWhDay (dm_metrics d)) devicesWithMetrics =
       map (fun d => energyKWhDay (dm_metrics d)) (rw_devices r))
    rs (rooms (calculateBuildingTotals rs devices s)).
Proof.
  rewrite calculateBuildingTotals_closed. cbn [rooms].
  apply Forall2_map_output. intro room.
  unfold managerRoom. rewrite mapAccum_deviceStep, !Qcplus_0_l.
  destruct (roomOutput_devices devices s room) as (-> & -> & _).
  rewrite !map_map. split; [reflexivity|]. split; [|split; reflexivity].
  apply sumQc_all_zero. intros d _. cbn. ring.
Qed.

Lemma Math_min_lt (a : number) (c : Qc) :
  num_lt a (Fin c) -> Math_min a (Fin c) = a.
Proof. intro H. apply Math_min_le. now left. Qed.

Lemma Math_min_not_lt (a : number) (c : Qc) :
  ~ num_lt a (Fin c) -> ~ num_lt (Math_min a (Fin c)) (Fin c).
Proof.
  intros Hn H. destruct a as [q| | |]; cbn in H.
  - destruct (c <? q) eqn:E.
    + now apply num_lt_irrefl in H.
    + now apply Hn.
  - now apply num_lt_irrefl in H.
  - apply Hn. constructor.
  - inversion H.
Qed.

(** X19.  The card "ROI / Payback Period" shows the payback period with one
    decimal when the unclamped period is below 999, and "N/A (No Usage)"
    otherwise: when the building has no positive yearly savings, and also
    when it has usage but a payback period of 999 years or more. *)
Theorem roiCard_of_engine_result (toFixed : number -> nat -> string)
    (rs : list Room) (devices : list Device) (s : SolarSettings) :
  let b := building (calculateBuildingTotals rs devices s) in
  (num_lt (paybackYears b) (Fin (lit 999)) ->
   roiCard toFixed b = String.append (toFixed (paybackYears b) 1%nat) " Years") /\
  (~ num_lt (paybackYears b) (Fin (lit 999)) ->
   roiCard toFixed b = "N/A (No Usage)") /\
  (~ 0 < yearlySavings b -> roiCard toFixed b = "N/A (No Usage)").
Proof.
  cbv zeta. rewrite calculateBuildingTotals_closed.
  cbn [building paybackYears yearlySavings]. unfold roiCard.
  cbn [totalROIYears]. split; [|split].
  - intro H. rewrite (Math_min_lt _ _ H).
    now rewrite (proj2 (num_ltb_true _ _) H).
  - intro H. apply Math_min_not_lt in H.
    now rewrite (proj2 (num_ltb_false _ _) H).
  - intro H. now rewrite (roiFor_no_savings _ _ H).
Qed.

(** A building with usage whose payback period is about 1217 years: the card
    reads "N/A (No Usage)". *)
Example roiCard_with_usage :
  roiCard (fun _ _ => "")
    (building
       (calculateBuildingTotals
          [mkRoom "r1" "Lab A" "Lab"]
          [mkDevice "d1" "r1" "Heater" (lit 2) (lit 1500) (lit 6)]
          {| electricityRate := lit 9; solarCostPerKW := lit 20000000;
             efficiencyFactor := 1; sunlightHours := lit 5;
             lifetimeYears := lit 25; annualInflation := lit 0.05 |}))
  = "N/A (No Usage)".
Proof. reflexivity. Qed.

(** *** The pie chart *)

Lemma fold_left_sum (data : list PieItem) (acc : Qc) :
  fold_left (fun sum item => sum + value item) data acc =
  acc + sumQc (map value data).
Proof.
  revert acc. induction data as [|item data IH]; intro acc;
    cbn [fold_left map sumQc fold_right].
  - ring.
  - rewrite IH. fold (sumQc (map value data)). ring.
Qed.

Lemma Qc_plus_pos (a b : Qc) : 0 < a -> 0 <= b -> 0 < a + b.
Proof.
  intros Ha Hb. apply Qclt_le_trans with (a + 0).
  - now rewrite Qcplus_0_r.
  - apply Qcplus_le_compat; [apply Qcle_refl | exact Hb].
Qed.

Lemma pieData_values_positive (roomsWithMetrics : list RoomWithMetrics) :
  Forall (fun item => 0 < value item) (pieData roomsWithMetrics).
Proof.
  unfold pieData. apply Forall_forall. intros item Hin.
  apply in_map_iff in Hin. destruct Hin as (r & <- & Hr).
  apply filter_In in Hr. destruct Hr as [_ Hr]. now apply Qc_gtb_true.
Qed.

Lemma positive_sum (data : list PieItem) :
  data <> [] -> Forall (fun item => 0 < value item) data ->
  0 < sumQc (map value data).
Proof.
  intros Hne Hall. destruct data as [|item data]; [now elim Hne|].
  inversion Hall as [|? ? Hitem Hrest]; subst.
  cbn [map sumQc fold_right]. apply Qc_plus_pos; [exact Hitem|].
  apply sumQc_nonneg. intros a Ha. apply Qclt_le_weak.
  rewrite Forall_forall in Hrest. now apply Hrest.
Qed.

(** X20.  The pie chart of the dashboard never reports "Total usage is
    zero": its data are the rooms with positive energy, so it shows "No usage
    data" exactly when no room has positive energy, and slices otherwise. *)
Theorem dashboard_pie_never_zero_total (roomsWithMetrics : list RoomWithMetrics) :
  PieChart (pieData roomsWithMetrics) <> TotalUsageZero /\
  (PieChart (pieData roomsWithMetrics) = NoUsageData <->
   Forall (fun r => ~ 0 < rm_energyKWhDay (rw_metrics r)) roomsWithMetrics).
Proof.
  assert (Hempty : pieData roomsWithMetrics = [] <->
                   Forall (fun r => ~ 0 < rm_energyKWhDay (rw_metrics r))
                          roomsWithMetrics).
  { unfold pieData. induction roomsWithMetrics as [|r l IH]; cbn [filter map].
    - split; intro; [constructor | reflexivity].
    - destruct (rm_energyKWhDay (rw_metrics r) >? 0) eqn:E.
      + split; [discriminate|]. intro H. inversion H as [|? ? Hr _]; subst.
        elim Hr. now apply Qc_gtb_true.
      + rewrite IH. split; intro H.
        * constructor; [|assumption]. intro Hpos.
          apply Qc_gtb_true in Hpos. congruence.
        * now inversion H. }
  pose proof (pieData_values_positive roomsWithMetrics) as Hpos.
  destruct (pieData roomsWithMetrics) as [|item data] eqn:Hd.
  - split; [discriminate|]. split; intro; [now apply Hempty | reflexivity].
  - assert (Hsum : 0 < sumQc (map value (item :: data)))
      by (apply positive_sum; [discriminate | exact Hpos]).
    unfold PieChart. rewrite fold_left_sum, Qcplus_0_l.
    destruct (Qc_eq_bool (sumQc (map value (item :: data))) 0) eqn:E.
    + apply Qc_eq_bool_correct in E. rewrite E in Hsum.
      now apply Qc_lt_irrefl in Hsum.
    + split; [discriminate|]. split; [discriminate|].
      intro H. apply Hempty in H. discriminate.
Qed.

Lemma mapAccum_segmentStep (total : Qc) (data : list PieItem) (c : Qc) (i : nat) :
  let out := mapAccum (segmentStep total) (c, i) data in
  fst (fst out) = c + sumQc (map (fun item => value item / total * lit 360) data) /\
  (map seg_startAngle (snd out) ++ [fst (fst out)])%list =
    c :: map seg_endAngle (snd out) /\
  map seg_key (snd out) = map label data /\
  map seg_percentage (snd out) = map (fun item => value item / total) data.
Proof.
  revert c i. induction data as [|item data IH]; intros c i; cbv zeta.
  - cbn. repeat split. ring.
  - cbn [mapAccum segmentStep].
    specialize (IH (c + value item / total * lit 360) (S i)). cbv zeta in IH.
    destruct (mapAccum (segmentStep total)
                (c + value item / total * lit 360, S i) data)
      as [[c' i'] segs].
    cbn [fst snd map app seg_startAngle seg_endAngle seg_key seg_percentage
         sumQc fold_right] in *.
    destruct IH as (H1 & H2 & H3 & H4). repeat split.
    + rewrite H1. unfold sumQc. ring.
    + now rewrite H2.
    + now rewrite H3.
    + now rewrite H4.
Qed.

(** X21.  When [PieChart] draws slices, there is one per item and in the
    items' order, the slices are contiguous (the first starts at 0 degrees,
    each next one where the previous ended), the last one ends at 360
    degrees, and the percentages add up to 1. *)
Theorem pie_slices_close_the_circle (data : list PieItem)
    (segments : list PieSegment) :
  PieChart data = Pie segments ->
  map seg_key segments = map label data /\
  (map seg_startAngle segments ++ [lit 360])%list =
    0 :: map seg_endAngle segments /\
  sumQc (map seg_percentage segments) = 1.
Proof.
  unfold PieChart. destruct data as [|item data]; [discriminate|].
  rewrite fold_left_sum, Qcplus_0_l.
  set (total := sumQc (map value (item :: data))).
  destruct (Qc_eq_bool total 0) eqn:E; [discriminate|].
  assert (Hne : total <> 0).
  { intro H0. rewrite H0 in E. discriminate E. }
  intro H.
  assert (Hs : segments =
               snd (mapAccum (segmentStep total) (0, 0%nat) (item :: data)))
    by (symmetry; now injection H).
  clear H. rewrite Hs. clear Hs.
  destruct (mapAccum_segmentStep total (item :: data) 0 0%nat)
    as (H1 & H2 & H3 & H4).
  split; [exact H3|]. split.
  - rewrite <- H2. f_equal. f_equal. rewrite H1.
    rewrite (sumQc_scale_r (fun item => value item / total) (lit 360)).
    unfold Qcdiv. rewrite (sumQc_scale_r value (/ total)).
    fold total. field. exact Hne.
  - rewrite H4. unfold Qcdiv. rewrite (sumQc_scale_r value (/ total)).
    fold total. field. exact Hne.
Qed.

(** X21 (witness): two rooms using 18 and 6 kWh a day: slices of 270 and 90
    degrees. *)
Lemma pie_slices_close_the_circle_witness :
  let data := [mkPieItem "Lab A" (lit 18); mkPieItem "Office" (lit 6)] in
  let segments := snd (mapAccum (segmentStep (lit 24)) (0, 0%nat) data) in
  map seg_key segments = map label data /\
  (map seg_startAngle segments ++ [lit 360])%list =
    0 :: map seg_endAngle segments /\
  sumQc (map seg_percentage segments) = 1.
Proof.
  cbv zeta.
  apply (pie_slices_close_the_circle
           [mkPieItem "Lab A" (lit 18); mkPieItem "Office" (lit 6)]).
  by_evaluation.
Defined.

(** *** The top cost centers *)

Lemma sortInsert_Permutation {A : Type} (compareFn : A -> A -> Qc) (x : A)
    (l : list A) :
  Permutation (sortInsert compareFn x l) (x :: l).
Proof.
  induction l as [|y l IH]; cbn [sortInsert]; [reflexivity|].
  destruct (compareFn y x <? 0); [|reflexivity].
  eapply perm_trans; [apply perm_skip, IH | apply perm_swap].
Qed.

Lemma sort_Permutation {A : Type} (compareFn : A -> A -> Qc) (l : list A) :
  Permutation (sort compareFn l) l.
Proof.
  unfold sort. induction l as [|x l IH]; cbn [fold_right]; [constructor|].
  eapply perm_trans; [apply sortInsert_Permutation | now apply perm_skip].
Qed.

Lemma Qc_minus_neg (a b : Qc) : a - b < 0 <-> a < b.
Proof.
  rewrite (Qclt_minus_iff (a - b) 0), (Qclt_minus_iff a b).
  replace (0 + - (a - b)) with (b + - a) by ring. reflexivity.
Qed.

Lemma byCostDescending_first (y x : RoomWithMetrics) :
  (byCostDescending y x <? 0) = true <->
  rm_costYearGrid (rw_metrics x) < rm_costYearGrid (rw_metrics y).
Proof.
  unfold byCostDescending. rewrite Qc_ltb_true. apply Qc_minus_neg.
Qed.

Lemma byCostDescending_stays (y x : RoomWithMetrics) :
  (byCostDescending y x <? 0) = false <-> costsAtLeast x y.
Proof.
  unfold costsAtLeast. split; intro H.
  - apply Qcnot_lt_le. intro Hlt. apply byCostDescending_first in Hlt.
    congruence.
  - destruct (byCostDescending y x <? 0) eqn:E; [|reflexivity].
    apply byCostDescending_first in E. now apply Qcle_not_lt in H.
Qed.

Lemma sortInsert_sorted (x : RoomWithMetrics) (l : list RoomWithMetrics) :
  StronglySorted costsAtLeast l ->
  StronglySorted costsAtLeast (sortInsert byCostDescending x l).
Proof.
  induction 1 as [|y l Hl IH Hy]; cbn [sortInsert].
  - repeat constructor.
  - destruct (byCostDescending y x <? 0) eqn:E.
    + apply byCostDescending_first in E. constructor; [exact IH|].
      eapply Permutation_Forall;
        [symmetry; apply sortInsert_Permutation|].
      constructor; [|exact Hy]. unfold costsAtLeast. now apply Qclt_le_weak.
    + apply byCostDescending_stays in E.
      constructor; [now constructor|]. constructor; [exact E|].
      eapply Forall_impl; [|exact Hy]. intros z Hz. unfold costsAtLeast in *.
      eapply Qcle_trans; eassumption.
Qed.

Lemma sort_sorted (l : list RoomWithMetrics) :
  StronglySorted costsAtLeast (sort byCostDescending l).
Proof.
  unfold sort. induction l as [|x l IH]; cbn [fold_right]; [constructor|].
  now apply sortInsert_sorted.
Qed.

Lemma sorted_prefix_dominates {A : Type} (R : A -> A -> Prop) (l : list A) :
  StronglySorted R l ->
  forall k a b, In a (firstn k l) -> In b (skipn k l) -> R a b.
Proof.
  induction 1 as [|x l Hl IH Hx]; intros k a b Ha Hb.
  - destruct k; contradiction.
  - destruct k as [|k]; [contradiction|]. cbn [firstn skipn] in Ha, Hb.
    destruct Ha as [<- | Ha].
    + rewrite Forall_forall in Hx. apply Hx.
      rewrite <- (firstn_skipn k l). apply in_or_app. now right.
    + now apply (IH k).
Qed.

(** X22.  Rendering the dashboard sorts the rooms array in place: what it
    leaves is a rearrangement of the rooms in descending order of yearly
    cost.  The table shows its first three entries (all of them when there
    are fewer), and no room left out of the table costs more than a room
    shown. *)
Theorem dashboard_top_cost_centers (roomsWithMetrics : list RoomWithMetrics) :
  let d := Dashboard roomsWithMetrics in
  Permutation (roomsAfterRender d) roomsWithMetrics /\
  StronglySorted costsAtLeast (roomsAfterRender d) /\
  topCostCenters d = firstn 3 (roomsAfterRender d) /\
  List.length (topCostCenters d) = Nat.min 3 (List.length roomsWithMetrics) /\
  (forall shown hidden,
      In shown (topCostCenters d) ->
      In hidden (skipn 3 (roomsAfterRender d)) ->
      costsAtLeast shown hidden).
Proof.
  cbv zeta. unfold Dashboard. cbn [roomsAfterRender topCostCenters].
  pose proof (sort_Permutation byCostDescending roomsWithMetrics) as Hp.
  pose proof (sort_sorted roomsWithMetrics) as Hs.
  repeat split; try assumption.
  - rewrite length_firstn. f_equal. now apply Permutation_length.
  - intros shown hidden. now apply sorted_prefix_dominates.
Qed.

Lemma sortInsert_stable (c : Qc) (x : RoomWithMetrics)
    (l : list RoomWithMetrics) :
  let sameCost r := Qc_eq_bool (rm_costYearGrid (rw_metrics r)) c in
  filter sameCost (sortInsert byCostDescending x l) = filter sameCost (x :: l).
Proof.
  cbv zeta. induction l as [|y l IH]; cbn [sortInsert]; [reflexivity|].
  destruct (byCostDescending y x <? 0) eqn:E; [|reflexivity].
  apply byCostDescending_first in E.
  cbn [filter] in *. rewrite IH.
  destruct (Qc_eq_bool (rm_costYearGrid (rw_metrics x)) c) eqn:Ex;
    [|reflexivity].
  destruct (Qc_eq_bool (rm_costYearGrid (rw_metrics y)) c) eqn:Ey;
    [|reflexivity].
  apply Qc_eq_bool_correct in Ex, Ey. rewrite Ex, Ey in E.
  now apply Qc_lt_irrefl in E.
Qed.

(** X23.  The sort is stable: rooms with the same yearly cost stand, after
    the dashboard has rendered, in the order they had before. *)
Theorem dashboard_sort_is_stable (roomsWithMetrics : list RoomWithMetrics)
    (c : Qc) :
  let sameCost r := Qc_eq_bool (rm_costYearGrid (rw_metrics r)) c in
  filter sameCost (roomsAfterRender (Dashboard roomsWithMetrics)) =
  filter sameCost roomsWithMetrics.
Proof.
  cbv zeta. unfold Dashboard. cbn [roomsAfterRender]. unfold sort.
  induction roomsWithMetrics as [|x l IH]; cbn [fold_right]; [reflexivity|].
  rewrite (sortInsert_stable c x). cbn [filter]. now rewrite IH.
Qed.

Lemma sort_of_sorted (l : list RoomWithMetrics) :
  StronglySorted costsAtLeast l -> sort byCostDescending l = l.
Proof.
  unfold sort. induction 1 as [|x l Hl IH Hx]; cbn [fold_right]; [reflexivity|].
  rewrite IH. destruct l as [|y l']; [reflexivity|]. cbn [sortInsert].
  inversion Hx as [|? ? Hxy _]; subst.
  now rewrite (proj2 (byCostDescending_stays y x) Hxy).
Qed.

(** X24.  Rendering the dashboard again on the array the first rendering
    left changes nothing more: the array and the table stay as they are. *)
Theorem dashboard_render_twice (roomsWithMetrics : list RoomWithMetrics) :
  let once := Dashboard roomsWithMetrics in
  let twice := Dashboard (roomsAfterRender once) in
  roomsAfterRender twice = roomsAfterRender once /\
  topCostCenters twice = topCostCenters once.
Proof.
  cbv zeta. unfold Dashboard. cbn [roomsAfterRender topCostCenters].
  rewrite (sort_of_sorted _ (sort_sorted roomsWithMetrics)). now split.
Qed.

(** Three rooms costing 100, 300 and 300 a year: the two rooms at 300 come
    first, in their original order. *)
Example dashboard_sort_example :
  let room name cost :=
    mkRoomWithMetrics name name "Office" [] (mkRoomMetrics 0 cost 0 0 NaN cost) in
  map rw_name
    (roomsAfterRender
       (Dashboard [room "a" (lit 100); room "b" (lit 300); room "c" (lit 300)]))
  = ["b"; "c"; "a"].
Proof. reflexivity. Qed.

(** *** Asking for recommendations *)

(** X25.  [generateRecommendations] of the recommendations view: without
    rooms, or with a building energy of 0, it sets the "Please add rooms and
    devices" error, clears the recommendations and never consults the
    service; otherwise it always ends with recommendations set, no error and
    the loading flag off, whatever the service did. *)
Theorem generateRecommendations_outcomes
    (JSON_parse : jsval -> option json) (toFixed : number -> nat -> string)
    (service : list PayloadEntry -> BuildingMetrics -> FetchOutcome)
    (messageOf : JsError -> string)
    (roomsWithMetrics : list RoomWithMetrics) (buildingMetrics : BuildingMetrics)
    (st : RecommendationsState) :
  let after :=
    generateRecommendations JSON_parse toFixed service messageOf
      roomsWithMetrics buildingMetrics st in
  (roomsWithMetrics = [] \/ totalEnergyKWhDay buildingMetrics = 0 ->
   after =
   {| recommendations := None;
      isLoading := isLoading st;
      error := Some "Please add rooms and devices to generate recommendations." |}) /\
  (roomsWithMetrics <> [] /\ totalEnergyKWhDay buildingMetrics <> 0 ->
   exists advice,
     generateLLMRecommendation JSON_parse toFixed service
       roomsWithMetrics buildingMetrics = Normal advice /\
     after =
     {| recommendations := Some advice; isLoading := false; error := None |}).
Proof.
  cbv zeta. unfold generateRecommendations. split.
  - intros [-> | ->]; [reflexivity|].
    now rewrite Bool.orb_true_r.
  - intros [Hne He].
    destruct roomsWithMetrics as [|r l]; [now elim Hne|].
    cbn [List.length Nat.eqb orb].
    destruct (Qc_eq_bool (totalEnergyKWhDay buildingMetrics) 0) eqn:E.
    + apply Qc_eq_bool_correct in E. now elim He.
    + destruct (generateLLMRecommendation_returns JSON_parse toFixed service
                  (r :: l) buildingMetrics) as [advice Ha].
      rewrite Ha. now exists advice.
Qed.

(** ** The document store *)

Lemma filter_twice {A : Type} (p q : A -> bool) (l : list A) :
  filter p (filter q l) = filter (fun a => q a && p a) l.
Proof.
  induction l as [|a l IH]; cbn [filter]; [reflexivity|].
  destruct (q a); cbn [filter andb]; [destruct (p a)|]; now rewrite IH.
Qed.

Lemma fold_deleteDoc (docs : list Document) (db : Firestore) :
  fold_left (fun db d => deleteDoc (doc_collection d) (doc_id d) db) docs db =
  filter
    (fun d => negb (existsb (fun x => refersTo (doc_collection x) (doc_id x) d) docs))
    db.
Proof.
  revert db. induction docs as [|x docs IH]; intro db; cbn [fold_left existsb].
  - symmetry. apply forallb_filter_id. now apply forallb_forall.
  - rewrite IH. unfold deleteDoc. rewrite filter_twice.
    apply filter_ext. intro d. now rewrite Bool.negb_orb.
Qed.

Lemma refersTo_key (x d : Document) :
  refersTo (doc_collection x) (doc_id x) d = true <-> docKey d = docKey x.
Proof.
  unfold refersTo, docKey. rewrite Bool.andb_true_iff, !String.eqb_eq.
  split; [intros [-> ->]; reflexivity | intro H; now injection H].
Qed.

Lemma wellFormed_unique (db : Firestore) (d x : Document) :
  wellFormed db -> In d db -> In x db -> docKey d = docKey x -> d = x.
Proof.
  unfold wellFormed. induction db as [|y db IH]; intros Hnd Hd Hx Hk;
    [contradiction|].
  cbn [map] in Hnd. apply NoDup_cons_iff in Hnd. destruct Hnd as [Hy Hnd].
  destruct Hd as [<- | Hd], Hx as [<- | Hx].
  - reflexivity.
  - elim Hy. rewrite Hk. now apply in_map.
  - elim Hy. rewrite <- Hk. now apply in_map.
  - now apply IH.
Qed.

Lemma filter_wellFormed (p : Document -> bool) (db : Firestore) :
  wellFormed db -> wellFormed (filter p db).
Proof.
  unfold wellFormed. induction db as [|d db IH]; cbn [filter map];
    [constructor|].
  intro Hwf. apply NoDup_cons_iff in Hwf. destruct Hwf as [Hd Hwf].
  destruct (p d); [|now apply IH].
  cbn [map]. constructor; [|now apply IH].
  intro Hin. apply Hd. apply in_map_iff in Hin.
  destruct Hin as (x & Hk & Hx). apply filter_In in Hx.
  rewrite <- Hk. apply in_map. tauto.
Qed.

(** With unique ids, the deletions of [deleteRoom] amount to one filter. *)
Lemma deleteRoom_as_filter (userId roomId : string) (db : Firestore) :
  wellFormed db ->
  deleteRoom userId roomId db =
  filter
    (fun d =>
       negb (refersTo (roomCollectionPath userId) roomId d)
       && negb (String.eqb (doc_collection d) (deviceCollectionPath userId)
                && hasRoomId roomId d))
    db.
Proof.
  intro Hwf.
  unfold deleteRoom. rewrite fold_deleteDoc. unfold deleteDoc at 2.
  rewrite filter_twice. apply filter_ext_in. intros d Hd.
  destruct (refersTo (roomCollectionPath userId) roomId d) eqn:Er;
    [reflexivity|].
  cbn [negb andb]. f_equal.
  destruct (String.eqb (doc_collection d) (deviceCollectionPath userId)
            && hasRoomId roomId d) eqn:Ed.
  - apply existsb_exists. exists d. split; [|now apply refersTo_key].
    apply Bool.andb_true_iff in Ed. destruct Ed as [Ec Eh].
    apply filter_In. split; [|exact Eh].
    unfold collectionDocs. apply filter_In. split; [|exact Ec].
    unfold deleteDoc. apply filter_In. split; [exact Hd|].
    now rewrite Er.
  - destruct (existsb _ _) eqn:Ex; [|reflexivity].
    apply existsb_exists in Ex. destruct Ex as (x & Hx & Hk).
    apply refersTo_key in Hk.
    apply filter_In in Hx. destruct Hx as [Hx Eh].
    unfold collectionDocs in Hx. apply filter_In in Hx.
    destruct Hx as [Hx Ec].
    unfold deleteDoc in Hx. apply filter_In in Hx. destruct Hx as [Hx _].
    rewrite (wellFormed_unique db d x Hwf Hd Hx Hk) in Ed.
    rewrite Ec, Eh in Ed. discriminate.
Qed.

(** X26.  In a database whose documents have unique ids per collection,
    [deleteRoom] removes exactly the room's document and the documents of
    the devices collection whose [roomId] field is the room's id; every
    other document stays, and the result is again well formed. *)
Theorem deleteRoom_cascade (userId roomId : string) (db : Firestore) :
  wellFormed db ->
  deleteRoom userId roomId db =
  filter
    (fun d =>
       negb (refersTo (roomCollectionPath userId) roomId d)
       && negb (String.eqb (doc_collection d) (deviceCollectionPath userId)
                && hasRoomId roomId d))
    db /\
  wellFormed (deleteRoom userId roomId db).
Proof.
  intro Hwf.
  pose proof (deleteRoom_as_filter userId roomId db Hwf) as Heq.
  split; [exact Heq|]. rewrite Heq. now apply filter_wellFormed.
Qed.

(** X26 (witness): two rooms, three devices; deleting room [r1] leaves room
    [r2] and its device. *)
Lemma deleteRoom_cascade_witness :
  let rooms := roomCollectionPath "u" in
  let devices := deviceCollectionPath "u" in
  let db :=
    [mkDocument rooms "r1" [("name", JStr "Lab A")];
     mkDocument devices "d1" [("name", JStr "Heater"); ("roomId", JStr "r1")];
     mkDocument rooms "r2" [("name", JStr "Office")];
     mkDocument devices "d2" [("name", JStr "Lamp"); ("roomId", JStr "r2")];
     mkDocument devices "d3" [("name", JStr "Fan"); ("roomId", JStr "r1")]] in
  deleteRoom "u" "r1" db =
  filter
    (fun d =>
       negb (refersTo rooms "r1" d)
       && negb (String.eqb (doc_collection d) devices && hasRoomId "r1" d))
    db /\
  wellFormed (deleteRoom "u" "r1" db).
Proof.
  cbv zeta.
  apply (deleteRoom_cascade "u" "r1").
  unfold wellFormed. cbn [map docKey doc_collection doc_id].
  repeat constructor; cbn [In]; intuition discriminate.
Defined.

Example deleteRoom_example :
  let rooms := roomCollectionPath "u" in
  let devices := deviceCollectionPath "u" in
  map doc_id
    (deleteRoom "u" "r1"
       [mkDocument rooms "r1" [("name", JStr "Lab A")];
        mkDocument devices "d1" [("name", JStr "Heater"); ("roomId", JStr "r1")];
        mkDocument rooms "r2" [("name", JStr "Office")];
        mkDocument devices "d2" [("name", JStr "Lamp"); ("roomId", JStr "r2")];
        mkDocument devices "d3" [("name", JStr "Fan"); ("roomId", JStr "r1")]])
  = ["r2"; "d2"].
Proof. reflexivity. Qed.

Lemma lookupMember_app (key : string) (a b : list (string * json)) :
  lookupMember key (a ++ b) =
  match lookupMember key a with
  | Some v => Some v
  | None => lookupMember key b
  end.
Proof.
  induction a as [|[k v] a IH]; cbn [app lookupMember]; [reflexivity|].
  now destruct (String.eqb k key).
Qed.

Lemma find_none {A : Type} (p : A -> bool) (l : list A) :
  (forall a, In a l -> p a = false) -> find p l = None.
Proof.
  induction l as [|a l IH]; intro H; cbn [find]; [reflexivity|].
  rewrite (H a (or_introl eq_refl)). apply IH. intros a' Ha'. apply H. now right.
Qed.

Lemma find_snoc {A : Type} (p : A -> bool) (l : list A) (x : A) :
  find p l = None -> p x = true -> find p (l ++ [x]) = Some x.
Proof.
  induction l as [|a l IH]; cbn [app find]; intros Hn Hx.
  - now rewrite Hx.
  - destruct (p a); [discriminate|]. now apply IH.
Qed.

Lemma find_replace {A : Type} (p : A -> bool) (g : A -> A) (l : list A) (old : A) :
  (forall a, p a = true -> p (g a) = true) ->
  find p l = Some old ->
  find p (map (fun a => if p a then g a else a) l) = Some (g old).
Proof.
  intro Hg. induction l as [|a l IH]; cbn [find map]; [discriminate|].
  destruct (p a) eqn:E.
  - intro H. injection H as <-. now rewrite (Hg a E).
  - rewrite E. exact IH.
Qed.

Lemma refersTo_self (path id : string) (data : list (string * json)) :
  refersTo path id (mkDocument path id data) = true.
Proof.
  unfold refersTo. cbn [doc_collection doc_id]. now rewrite !String.eqb_refl.
Qed.

(** The settings document after [setDocMerge]: the new fields over the old. *)
Lemma getDoc_setDocMerge (path id : string) (data : list (string * json))
    (db : Firestore) :
  getDoc path id (setDocMerge path id data db) =
  Some (mkDocument path id
          (match getDoc path id db with
           | Some old => spread (doc_data old) data
           | None => data
           end)).
Proof.
  unfold setDocMerge, getDoc.
  destruct (find (refersTo path id) db) as [old|] eqn:E.
  - apply (find_replace (refersTo path id)
             (fun d => mkDocument path id (spread (doc_data d) data)) db old);
      [|exact E].
    intros a _. apply refersTo_self.
  - apply find_snoc; [exact E | apply refersTo_self].
Qed.

(** X27.  The settings document is kept in the rooms collection.  Once the
    settings listener has run, that document exists, and the rooms listener
    reports it among the rooms, as the entry [{ id: "settings", ...data }]
    that carries the settings fields; the settings in effect are the fields
    of that document over the defaults. *)
Theorem settings_document_listed_among_rooms (userId : string) (db : Firestore) :
  let db' := fst (settingsListener userId db) in
  let solarSettings := snd (settingsListener userId db) in
  exists docSnap,
    getDoc (roomCollectionPath userId) settingsDocPath db' = Some docSnap /\
    In (spread [("id", JStr "settings")] (doc_data docSnap)) (roomList userId db') /\
    forall key,
      lookupMember key solarSettings =
      lookupMember key (spread initialSolarSettingsObject (doc_data docSnap)).
Proof.
  cbv zeta. unfold settingsListener.
  assert (Hlisted : forall d db0,
            getDoc (roomCollectionPath userId) settingsDocPath db0 = Some d ->
            In (spread [("id", JStr "settings")] (doc_data d)) (roomList userId db0)).
  { intros d db0 Hd. unfold getDoc in Hd. apply find_some in Hd.
    destruct Hd as [Hin Href]. unfold refersTo in Href.
    apply Bool.andb_true_iff in Href. destruct Href as [Hc Hi].
    apply String.eqb_eq in Hi. unfold roomList. apply in_map_iff.
    exists d. split; [now rewrite Hi|].
    unfold collectionDocs. apply filter_In. now split. }
  destruct (getDoc (roomCollectionPath userId) settingsDocPath db)
    as [docSnap|] eqn:E; cbn [fst snd].
  - exists docSnap. split; [exact E|]. split; [now apply Hlisted|].
    reflexivity.
  - pose proof (getDoc_setDocMerge (roomCollectionPath userId) settingsDocPath
                  initialSolarSettingsObject db) as Hget.
    rewrite E in Hget. eexists. split; [exact Hget|].
    split; [now apply Hlisted|].
    intro key. cbn [doc_data]. unfold spread. rewrite lookupMember_app.
    now destruct (lookupMember key initialSolarSettingsObject).
Qed.

(** On a new database: the rooms list holds one entry, the settings, and it
    has no name. *)
Example settings_listed_on_first_run :
  let db' := fst (settingsListener "u" []) in
  roomList "u" db'
    = [spread [("id", JStr "settings")] initialSolarSettingsObject] /\
  map (lookupMember "name") (roomList "u" db') = [None] /\
  map (lookupMember "id") (roomList "u" db') = [Some (JStr "settings")].
Proof. cbv zeta. repeat split. Qed.

(** X28.  Deleting the room with id "settings", the entry the rooms list
    shows for the settings document, deletes the saved settings: the next run
    of the settings listener finds no document and puts the defaults back. *)
Theorem deleting_settings_room_resets_settings (userId : string) (db : Firestore) :
  let db' := deleteRoom userId settingsDocPath db in
  getDoc (roomCollectionPath userId) settingsDocPath db' = None /\
  snd (settingsListener userId db') = initialSolarSettingsObject.
Proof.
  cbv zeta.
  assert (Hnone : getDoc (roomCollectionPath userId) settingsDocPath
                    (deleteRoom userId settingsDocPath db) = None).
  { unfold getDoc. apply find_none. intros d Hd.
    unfold deleteRoom in Hd. rewrite fold_deleteDoc in Hd.
    apply filter_In in Hd. destruct Hd as [Hd _].
    unfold deleteDoc in Hd. apply filter_In in Hd. destruct Hd as [_ Hd].
    now apply Bool.negb_true_iff in Hd. }
  split; [exact Hnone|]. unfold settingsListener. now rewrite Hnone.
Qed.

(** X29.  Saved settings are read back: after [updateSolarSettings(data)]
    the settings listener yields, for every field, the value of [data] if it
    has the field, else the value stored before, else the default. *)
Theorem saved_settings_are_read_back (userId : string)
    (data : list (string * json)) (db : Firestore) :
  let solarSettings :=
    snd (settingsListener userId (updateSolarSettings userId data db)) in
  forall key,
    lookupMember key solarSettings =
    match lookupMember key data with
    | Some v => Some v
    | None =>
        match getDoc (roomCollectionPath userId) settingsDocPath db with
        | Some old =>
            match lookupMember key (doc_data old) with
            | Some v => Some v
            | None => lookupMember key initialSolarSettingsObject
            end
        | None => lookupMember key initialSolarSettingsObject
        end
    end.
Proof.
  cbv zeta. intro key. unfold settingsListener, updateSolarSettings.
  rewrite getDoc_setDocMerge. cbn [snd doc_data].
  destruct (getDoc (roomCollectionPath userId) settingsDocPath db) as [old|];
    unfold spread; rewrite !lookupMember_app;
    now destruct (lookupMember key data).
Qed.

(** Saving a new tariff over stored settings that lack the lifetime: the
    tariff is the saved one, the sunlight hours the stored ones, the lifetime
    the default. *)
Example saved_settings_example :
  let db := [mkDocument (roomCollectionPath "u") "settings"
               [("sunlightHours", JNum (Fin (lit 6)))]] in
  let solarSettings :=
    snd (settingsListener "u"
           (updateSolarSettings "u"
              [("electricityRate", JNum (Fin (lit 11)))] db)) in
  map (fun key => lookupMember key solarSettings)
    ["electricityRate"; "sunlightHours"; "lifetimeYears"]
  = [Some (JNum (Fin (lit 11))); Some (JNum (Fin (lit 6)));
     Some (JNum (Fin (lit 25)))].
Proof. reflexivity. Qed.

Lemma append_injective (a b c : string) :
  String.append a b = String.append a c -> b = c.
Proof.
  induction a as [|ch a IH]; cbn [String.append]; intro H; [exact H|].
  injection H as H. now apply IH.
Qed.

Lemma collections_differ (userId : string) :
  roomCollectionPath userId <> deviceCollectionPath userId.
Proof.
  unfold roomCollectionPath, deviceCollectionPath. intro H.
  repeat apply append_injective in H. discriminate H.
Qed.

Lemma hasRoomId_unique (r1 r2 : string) (d : Document) :
  hasRoomId r1 d = true -> hasRoomId r2 d = true -> r1 = r2.
Proof.
  unfold hasRoomId. destruct (lookupMember "roomId" (doc_data d)) as [[]|];
    try discriminate.
  rewrite !String.eqb_eq. congruence.
Qed.

(** X30.  [deleteRoom] keeps the inventory free of orphans: if every device
    document names an existing room document before, so it does after. *)
Theorem deleteRoom_keeps_no_orphans (userId roomId : string) (db : Firestore) :
  wellFormed db ->
  noOrphans userId db ->
  noOrphans userId (deleteRoom userId roomId db).
Proof.
  intros Hwf Hno.
  pose proof (deleteRoom_as_filter userId roomId db Hwf) as Heq.
  intros device Hdev. rewrite Heq in Hdev |- *.
  unfold collectionDocs in Hdev. apply filter_In in Hdev.
  destruct Hdev as [Hdev Hc]. apply filter_In in Hdev.
  destruct Hdev as [Hin Hkeep].
  apply Bool.andb_true_iff in Hkeep. destruct Hkeep as [_ Hkeep].
  rewrite Hc in Hkeep. cbn [andb] in Hkeep.
  apply Bool.negb_true_iff in Hkeep.
  destruct (Hno device) as (room & Hroom & Hhas).
  { unfold collectionDocs. apply filter_In. now split. }
  exists room. split; [|exact Hhas].
  unfold collectionDocs in Hroom |- *. apply filter_In in Hroom.
  destruct Hroom as [Hrin Hrc].
  apply filter_In. split; [|exact Hrc]. apply filter_In. split; [exact Hrin|].
  apply Bool.andb_true_iff. split.
  - apply Bool.negb_true_iff. unfold refersTo. rewrite Hrc. cbn [andb].
    destruct (String.eqb (doc_id room) roomId) eqn:Ei; [|reflexivity].
    apply String.eqb_eq in Ei. rewrite Ei in Hhas. congruence.
  - apply Bool.negb_true_iff. apply String.eqb_eq in Hrc. rewrite Hrc.
    destruct (String.eqb (roomCollectionPath userId) (deviceCollectionPath userId))
      eqn:Ep; [|reflexivity].
    apply String.eqb_eq in Ep. now apply collections_differ in Ep.
Qed.

(** X30 (witness): the five-document database. *)
Lemma deleteRoom_keeps_no_orphans_witness :
  let rooms := roomCollectionPath "u" in
  let devices := deviceCollectionPath "u" in
  let db :=
    [mkDocument rooms "r1" [("name", JStr "Lab A")];
     mkDocument devices "d1" [("name", JStr "Heater"); ("roomId", JStr "r1")];
     mkDocument rooms "r2" [("name", JStr "Office")];
     mkDocument devices "d2" [("name", JStr "Lamp"); ("roomId", JStr "r2")];
     mkDocument devices "d3" [("name", JStr "Fan"); ("roomId", JStr "r1")]] in
  noOrphans "u" (deleteRoom "u" "r1" db).
Proof.
  cbv zeta.
  apply (deleteRoom_keeps_no_orphans "u" "r1").
  - unfold wellFormed. cbn [map docKey doc_collection doc_id].
    repeat constructor; cbn [In]; intuition discriminate.
  - intros device Hdev. cbn in Hdev.
    destruct Hdev as [<- | [<- | [<- | []]]].
    + exists (mkDocument (roomCollectionPath "u") "r1" [("name", JStr "Lab A")]).
      split; [cbn; tauto | reflexivity].
    + exists (mkDocument (roomCollectionPath "u") "r2" [("name", JStr "Office")]).
      split; [cbn; tauto | reflexivity].
    + exists (mkDocument (roomCollectionPath "u") "r1" [("name", JStr "Lab A")]).
      split; [cbn; tauto | reflexivity].
Defined.

(** ** Where the doubles part from the exact arithmetic *)

Import Floats.
#[local] Set Warnings "-inexact-float".

(** C6 (counterexample).  On doubles, the default settings with no inflation,
    a lifetime of 25 years and one 40 W device used one hour a day: the
    yearly grid cost is 131.49 and the installation cost 560, so
    [lifetimeYears * totalCostYearGrid - totalInstallationCost] is 2727.25,
    but the 25 rounded additions of the loop give a [longTermSavings] of
    2727.249999999998. *)
Lemma longTermSavings_not_flat_in_binary64 :
  let s :=
    {| Binary64.electricityRate := 9.0; Binary64.solarCostPerKW := 70000;
       Binary64.efficiencyFactor := 1.0; Binary64.sunlightHours := 5;
       Binary64.lifetimeYears := 25; Binary64.annualInflation := 0 |}%float in
  exists result,
    Binary64.calculateBuildingTotals 25
      [mkRoom "r1" "Lab A" "Lab"]
      [Binary64.mkDevice "d1" "r1" "Lamp" 1 40 1]%float s
    = Some result /\
    let b := Binary64.building result in
    Binary64.totalCostYearGrid b = 131.49%float /\
    Binary64.totalInstallationCost b = 560%float /\
    Binary64.longTermSavings b = 2727.249999999998%float /\
    (Binary64.lifetimeYears s * Binary64.totalCostYearGrid b
     - Binary64.totalInstallationCost b = 2727.25)%float /\
    (Binary64.longTermSavings b
     =? Binary64.lifetimeYears s * Binary64.totalCostYearGrid b
        - Binary64.totalInstallationCost b)%float = false.
Proof.
  cbv zeta. eexists. split; [vm_compute; reflexivity|].
  cbv zeta. repeat split; vm_compute; reflexivity.
Qed.

(** On doubles, three rooms with one device each under the default settings:
    the [roiYears] differ in their last digits, among themselves and from the
    building's [totalROIYears]. *)
Example roiYears_vary_in_binary64 :
  option_map
    (fun result =>
       (map (fun r => Binary64.rm_roiYears (Binary64.rw_metrics r))
          (Binary64.rooms result),
        Binary64.totalROIYears (Binary64.building result)))
    (Binary64.calculateBuildingTotals 25
       [mkRoom "r1" "A" "Lab"; mkRoom "r2" "B" "Lab"; mkRoom "r3" "C" "Lab"]
       [Binary64.mkDevice "d1" "r1" "Lamp" 1 40 1;
        Binary64.mkDevice "d2" "r2" "Heater" 2 1500 6;
        Binary64.mkDevice "d3" "r3" "Bulb" 7 11 3]%float
       Binary64.initialSolarSettings)
  = Some ([4.2588790022054903; 4.2588790022054912; 4.2588790022054921]%float,
          4.2588790022054912%float).
Proof. vm_compute. reflexivity. Qed.

(** On doubles, at 82181.25 per kW the exact payback period is 5 years; a
    100 W device used four hours gets 5, a 3500 W device used one hour gets
    4.999999999999999, and the two rooms fall on opposite sides of the 5-year
    cutoff of the recommendations. *)
Example cutoff_splits_rooms_in_binary64 :
  option_map
    (fun result =>
       map (fun r =>
              let roiYears := Binary64.rm_roiYears (Binary64.rw_metrics r) in
              (roiYears, (roiYears <? 5)%float))
         (Binary64.rooms result))
    (Binary64.calculateBuildingTotals 25
       [mkRoom "r1" "A" "Lab"; mkRoom "r2" "B" "Lab"]
       [Binary64.mkDevice "d1" "r1" "Fan" 1 100 4;
        Binary64.mkDevice "d2" "r2" "Oven" 1 3500 1]%float
       {| Binary64.electricityRate := 9; Binary64.solarCostPerKW := 82181.25;
          Binary64.efficiencyFactor := 1; Binary64.sunlightHours := 5;
          Binary64.lifetimeYears := 25; Binary64.annualInflation := 0.05 |}%float)
  = Some [(5%float, false); (4.9999999999999991%float, true)].
Proof. vm_compute. reflexivity. Qed.
